(** * The NFC service (amiibo emulation): state machine, record codec, handlers

    A shallow embedding of [core/hle/service/nfc/nfc.h] and
    [core/hle/service/nfc/nfc.cpp].

    - Fixed-width integers are [Z] with the wrap-around written out
      ([u8], [u16], [u32]).
    - The tag buffer [u8 amiibo_data[sizeof(AmiiboDataDec)]] is a [list Z] of
      bytes; the two packed structs overlaid on it are described by their
      field layouts, and fields are read and written at the offsets the
      layouts give, with the endianness each field declares.
    - A handler is a function from the module state to the new module state
      and the reply the handler pushed, if it pushed one. *)

From Stdlib Require Import ZArith Lia.
From stdpp Require Import base option list strings gmap.

Local Open Scope Z_scope.

(** ** Fixed-width integers *)

Definition u8 (x : Z) : Z := x mod 0x100.
Definition u16 (x : Z) : Z := x mod 0x10000.
Definition u32 (x : Z) : Z := x mod 0x100000000.

Definition is_u8 (x : Z) : Prop := 0 <= x < 0x100.

(** ** Date and flag codec (file-static functions of nfc.cpp) *)

(** [static u16_be pack_date(u8 month, u8 day, u16 year)]: the expression is
    evaluated in [int] (so [year - 2000] may be negative; [Z.land] agrees
    with two's complement there) and then converted to 16 bits. *)
Definition pack_date (month day year : Z) : Z :=
  u16 (Z.lor (Z.lor (Z.shiftl (Z.land day 0x1F) 11)
                    (Z.shiftl (Z.land month 0x0F) 7))
             (Z.land (year - 2000) 0x7F)).

Definition unpack_date_day (date : Z) : Z :=
  u8 (Z.shiftr (Z.land date 0xF800) 11).

Definition unpack_date_month (date : Z) : Z :=
  u8 (Z.shiftr (Z.land date 0x780) 7).

Definition unpack_date_year (date : Z) : Z :=
  u16 (Z.land date 0x7F + 2000).

(** If this bit is enabled, the "amiibo Settings" app has been used. *)
Definition flag_settings_initted (flags : Z) : bool :=
  negb (Z.land flags 0x10 =? 0).

(** If this bit is enabled, AppData exists on the amiibo. *)
Definition flag_appdata_initted (flags : Z) : bool :=
  negb (Z.land flags 0x20 =? 0).

(** ** Packed struct layouts *)

Module Layout.
(** A packed struct is the list of its members' sizes in declaration
    order; [offset_of i] is the offset of the [i]-th member. *)
Definition sizeof (fields : list nat) : nat := foldr Nat.add 0%nat fields.
Definition offset_of (fields : list nat) (i : nat) : nat :=
  sizeof (take i fields).
End Layout.

(** [struct AmiiboDataEnc] *)
Module AmiiboDataEnc.
Inductive field :=
  | uuid | padding0 | char_id | char_variant | figure_type | model_number
  | series | padding1.

Definition fields : list field :=
  [uuid; padding0; char_id; char_variant; figure_type; model_number;
   series; padding1].

Definition size (f : field) : nat :=
  match f with
  | uuid => 7
  | padding0 => 0x4D
  | char_id => 2
  | char_variant => 1
  | figure_type => 1
  | model_number => 2
  | series => 1
  | padding1 => 0x1C1
  end%nat.

Definition index (f : field) : nat :=
  match f with
  | uuid => 0 | padding0 => 1 | char_id => 2 | char_variant => 3
  | figure_type => 4 | model_number => 5 | series => 6 | padding1 => 7
  end%nat.

Definition sizeof : nat := Eval cbv in Layout.sizeof (size <$> fields).
Definition offset (f : field) : nat :=
  Layout.offset_of (size <$> fields) (index f).

Definition off_uuid : nat := Eval cbv in offset uuid.
Definition off_char_id : nat := Eval cbv in offset char_id.
Definition off_char_variant : nat := Eval cbv in offset char_variant.
Definition off_figure_type : nat := Eval cbv in offset figure_type.
Definition off_model_number : nat := Eval cbv in offset model_number.
Definition off_series : nat := Eval cbv in offset series.
End AmiiboDataEnc.

(** [struct AmiiboDataDec] *)
Module AmiiboDataDec.
Inductive field :=
  | dummy1 | pagex4_byte3 | flags | country | crc_mismatch_count
  | setup_date | last_write_date | crc32 | nickname | mii | title_id
  | write_count | app_id | unknown1 | hmac_sha256 | app_data | dummy2
  | uuid | unknown2 | char_id | char_variant | figure_type | model_number
  | series | unknown3 | dummy3.

Definition fields : list field :=
  [dummy1; pagex4_byte3; flags; country; crc_mismatch_count; setup_date;
     last_write_date; crc32; nickname; mii; title_id; write_count; app_id;
     unknown1; hmac_sha256; app_data; dummy2; uuid; unknown2; char_id;
     char_variant; figure_type; model_number; series; unknown3; dummy3].

Definition size (f : field) : nat :=
  match f with
  | dummy1 => 0x2B
  | pagex4_byte3 => 1
  | flags => 1
  | country => 1
  | crc_mismatch_count => 2
  | setup_date => 2
  | last_write_date => 2
  | crc32 => 4
  | nickname => 2 * 10
  | mii => 0x60
  | title_id => 8
  | write_count => 2
  | app_id => 4
  | unknown1 => 2
  | hmac_sha256 => 0x20
  | app_data => 0xD8
  | dummy2 => 0x20
  | uuid => 7
  | unknown2 => 1
  | char_id => 2
  | char_variant => 1
  | figure_type => 1
  | model_number => 2
  | series => 1
  | unknown3 => 1
  | dummy3 => 0x38
  end%nat.

Definition index (f : field) : nat :=
  match f with
  | dummy1 => 0 | pagex4_byte3 => 1 | flags => 2 | country => 3
  | crc_mismatch_count => 4 | setup_date => 5 | last_write_date => 6
  | crc32 => 7 | nickname => 8 | mii => 9 | title_id => 10
  | write_count => 11 | app_id => 12 | unknown1 => 13 | hmac_sha256 => 14
  | app_data => 15 | dummy2 => 16 | uuid => 17 | unknown2 => 18
  | char_id => 19 | char_variant => 20 | figure_type => 21
  | model_number => 22 | series => 23 | unknown3 => 24 | dummy3 => 25
  end%nat.

Definition sizeof : nat := Eval cbv in Layout.sizeof (size <$> fields).
Definition offset (f : field) : nat :=
  Layout.offset_of (size <$> fields) (index f).

Definition off_flags : nat := Eval cbv in offset flags.
Definition off_country : nat := Eval cbv in offset country.
Definition off_setup_date : nat := Eval cbv in offset setup_date.
Definition off_last_write_date : nat := Eval cbv in offset last_write_date.
Definition off_nickname : nat := Eval cbv in offset nickname.
Definition off_mii : nat := Eval cbv in offset mii.
Definition off_write_count : nat := Eval cbv in offset write_count.
Definition off_app_id : nat := Eval cbv in offset app_id.
Definition off_app_data : nat := Eval cbv in offset app_data.
Definition off_uuid : nat := Eval cbv in offset uuid.
Definition off_char_id : nat := Eval cbv in offset char_id.
Definition off_char_variant : nat := Eval cbv in offset char_variant.
Definition off_figure_type : nat := Eval cbv in offset figure_type.
Definition off_model_number : nat := Eval cbv in offset model_number.
Definition off_series : nat := Eval cbv in offset series.
Definition off_unknown3 : nat := Eval cbv in offset unknown3.

Definition size_app_data : nat := Eval cbv in size app_data.
Definition size_uuid : nat := Eval cbv in size uuid.
End AmiiboDataDec.

(** ** Typed access to a byte buffer *)

(** Reading outside the list yields 0; the handlers only read inside the
    0x21C bytes of [amiibo_data]. *)
Definition get_u8 (d : list Z) (off : nat) : Z := default 0 (d !! off).

Definition get_u16_be (d : list Z) (off : nat) : Z :=
  get_u8 d off * 0x100 + get_u8 d (S off).

Definition get_u16_le (d : list Z) (off : nat) : Z :=
  get_u8 d off + get_u8 d (S off) * 0x100.

Definition get_u32_be (d : list Z) (off : nat) : Z :=
  ((get_u8 d off * 0x100 + get_u8 d (S off)) * 0x100
   + get_u8 d (S (S off))) * 0x100 + get_u8 d (S (S (S off))).

Definition set_u16_be (d : list Z) (off : nat) (v : Z) : list Z :=
  <[S off := v mod 0x100]> (<[off := (v / 0x100) mod 0x100]> d).

Definition set_u32_be (d : list Z) (off : nat) (v : Z) : list Z :=
  <[S (S (S off)) := v mod 0x100]>
    (<[S (S off) := (v / 0x100) mod 0x100]>
       (<[S off := (v / 0x10000) mod 0x100]>
          (<[off := (v / 0x1000000) mod 0x100]> d))).

(** [n] bytes starting at [off]. *)
Definition get_bytes (d : list Z) (off n : nat) : list Z :=
  take n (drop off d).

(** [std::memcpy(dst + off, src, n)] on a buffer that holds [off + n]
    bytes; callers guarantee [n <= length src]. *)
Definition memcpy (dst : list Z) (off : nat) (src : list Z) (n : nat)
  : list Z :=
  take off dst ++ take n src ++ drop (off + n) dst.

(** ** Collaborators declared outside these two files *)

Module Kernel.
(** Modelled from the spec: [Kernel::Event] is only forward-declared in
    nfc.h.  The spec treats it as an opaque object with [signal()]; the
    model keeps whether the event is set and how many times [Signal] was
    called on it, so that "signaled exactly once" can be stated. *)
Record Event := {
  signaled : bool;
  signal_count : nat
}.

Definition Signal (e : Event) : Event :=
  {| signaled := true; signal_count := S (signal_count e) |}.
End Kernel.

Module FileUtil.
(** Modelled from the spec: [FileUtil::IOFile] is not part of these two
    files.  Persistence is a byte-blob store keyed by a path: a read of
    [n] bytes fails if the source is unreadable or short, and a path may be
    unwritable.  [unwritable] holds the paths that cannot be opened in
    mode "wb"; [write_fails] those on which [WriteBytes] fails after a
    successful open. *)
Record FileSystem := {
  files : gmap string (list Z);
  unwritable : gset string;
  write_fails : gset string
}.

Definition with_files (f : gmap string (list Z)) (fs : FileSystem)
  : FileSystem :=
  {| files := f; unwritable := unwritable fs; write_fails := write_fails fs |}.

(** Modelled from the spec: [IOFile file(path, "rb")] yields
    [Some content] when [IsOpen()]. *)
Definition open_rb (fs : FileSystem) (path : string) : option (list Z) :=
  files fs !! path.

(** Modelled from the spec: [file.ReadBytes(&data, n)] on an open file
    gives the [n] bytes read, or [None] (a result the caller's [!] test
    takes as failure) when the source is short. *)
Definition ReadBytes (content : list Z) (n : nat) : option (list Z) :=
  if decide (n ≤ length content)%nat then Some (take n content) else None.

(** Modelled from the spec: [IOFile file(path, "wb")] yields [Some fs']
    when [IsOpen()]; opening for writing creates or truncates the file. *)
Definition open_wb (fs : FileSystem) (path : string) : option FileSystem :=
  if decide (path ∈ unwritable fs) then None
  else Some (with_files (<[path := []]> (files fs)) fs).

(** Modelled from the spec: [file.WriteBytes(data, n)] on a file opened
    with "wb" replaces the content, or fails and leaves it. *)
Definition WriteBytes (fs : FileSystem) (path : string) (data : list Z)
  : FileSystem * bool :=
  if decide (path ∈ write_fails fs) then (fs, false)
  else (with_files (<[path := data]> (files fs)) fs, true).
End FileUtil.

(** ** Service::NFC *)

Module ErrCodes.
Inductive t :=
  | CommandInvalidForState
  | AppDataUninitialized
  | AmiiboNotSetup
  | AppIdMismatch
  | DataCorruption0
  | DataCorruption1.

Definition value (e : t) : Z :=
  match e with
  | CommandInvalidForState => 512
  | AppDataUninitialized => 544
  | AmiiboNotSetup => 552
  | AppIdMismatch => 568
  | DataCorruption0 => 524
  | DataCorruption1 => 536
  end.
End ErrCodes.

Inductive ErrorModule := ErrorModule_NFC.
Inductive ErrorSummary := ErrorSummary_InvalidState.
Inductive ErrorLevel := ErrorLevel_Status.

Inductive ResultCode :=
  | RESULT_SUCCESS
  | ResultError (description : ErrCodes.t) (module : ErrorModule)
                (summary : ErrorSummary) (level : ErrorLevel).

(** [ResultCode(e, ErrorModule::NFC, ErrorSummary::InvalidState,
    ErrorLevel::Status)], the only shape of error the handlers build. *)
Definition nfc_error (e : ErrCodes.t) : ResultCode :=
  ResultError e ErrorModule_NFC ErrorSummary_InvalidState ErrorLevel_Status.

Module TagState.
Inductive t :=
  | NotInitialized
  | NotScanning
  | Scanning
  | TagInRange
  | TagOutOfRange
  | TagDataLoaded
  | Unknown6.

Definition value (s : t) : Z :=
  match s with
  | NotInitialized => 0
  | NotScanning => 1
  | Scanning => 2
  | TagInRange => 3
  | TagOutOfRange => 4
  | TagDataLoaded => 5
  | Unknown6 => 6
  end.

#[global] Instance eq_dec : EqDecision t.
Proof. solve_decision. Defined.

End TagState.

Module CommunicationStatus.
Inductive t :=
  | NotInitialized
  | AttemptInitialize
  | Initialized.

Definition value (s : t) : Z :=
  match s with
  | NotInitialized => 0
  | AttemptInitialize => 1
  | Initialized => 2
  end.
End CommunicationStatus.

(** [struct TagInfo] *)
Module TagInfo.
Record t := {
  id_offset_size : Z;
  unk1 : Z;
  unk2 : Z;
  id : list Z
}.
Definition size_id : nat := 0x28.
End TagInfo.

(** [struct AmiiboConfig] *)
Module AmiiboConfig.
Record t := {
  last_write_year : Z;
  last_write_month : Z;
  last_write_day : Z;
  write_count : Z;
  char_id : Z;
  char_variant : Z;
  series : Z;
  model_number : Z;
  figure_type : Z;
  pagex4_byte3 : Z;
  appdata_size : Z
}.
End AmiiboConfig.

(** [struct IdentificationBlockReply] *)
Module IdentificationBlockReply.
Record t := {
  char_id : Z;
  char_variant : Z;
  series : Z;
  model_number : Z;
  figure_type : Z
}.
End IdentificationBlockReply.

(** [struct AmiiboSettings].  [nickname] is kept as the 22 bytes of the
    [std::array<u16, 11>], because the handler fills it with [memcpy]. *)
Module AmiiboSettings.
Record t := {
  mii : list Z;
  nickname : list Z;
  flags : Z;
  country : Z;
  setup_year : Z;
  setup_month : Z;
  setup_day : Z;
  dummy : list Z
}.
Definition size_mii : nat := 0x60.
Definition size_nickname : nat := 2 * 11.
Definition size_dummy : nat := 0x2C.

(** [AmiiboSettings amiibo_settings{}] / [memset(&amiibo_settings, 0, ..)] *)
Definition zero : t :=
  {| mii := replicate size_mii 0;
     nickname := replicate size_nickname 0;
     flags := 0; country := 0;
     setup_year := 0; setup_month := 0; setup_day := 0;
     dummy := replicate size_dummy 0 |}.
End AmiiboSettings.

Module NFC.
Import Kernel FileUtil.

(** Which of the module's two events a reply carries a handle to
    ([rb.PushCopyObjects]). *)
Inductive EventRef := tag_in_range_event_ref | tag_out_of_range_event_ref.

(** What a handler pushes after the result code. *)
Inductive Payload :=
  | NoPayload
  | RawTagInfo (tag_info : TagInfo.t)
  | RawAmiiboSettings (amiibo_settings : AmiiboSettings.t)
  | RawAmiiboConfig (amiibo_config : AmiiboConfig.t)
  | RawIdentificationBlock (reply : IdentificationBlockReply.t)
  | StaticBuffer (buffer : list Z)
  | EnumTagState (s : TagState.t)
  | EnumCommunicationStatus (s : CommunicationStatus.t)
  | CopyObjects (e : EventRef).

(** The reply a handler built with its [IPC::RequestBuilder]. A handler
    that returns without building one yields no [Reply] at all. *)
Record Reply := {
  result : ResultCode;
  payload : Payload
}.

Definition status_only (r : ResultCode) : Reply :=
  {| result := r; payload := NoPayload |}.

Definition invalid_state : Reply :=
  status_only (nfc_error ErrCodes.CommandInvalidForState).

(** [class Module]: the private data members. *)
Record Module := {
  tag_in_range_event : Event;
  tag_out_of_range_event : Event;
  nfc_tag_state : TagState.t;
  nfc_status : CommunicationStatus.t;
  amiibo_data : list Z;
  amiibo_decrypted : bool;
  amiibo_filename : string;
  amiibo_in_range : bool
}.

(** The member initialisers of [class Module]; the constructor creates the
    two events, and [amiibo_data] starts with whatever bytes [d] it holds. *)
Definition Module_new (d : list Z) : Module :=
  {| tag_in_range_event := {| signaled := false; signal_count := 0 |};
     tag_out_of_range_event := {| signaled := false; signal_count := 0 |};
     nfc_tag_state := TagState.NotInitialized;
     nfc_status := CommunicationStatus.Initialized;
     amiibo_data := d;
     amiibo_decrypted := false;
     amiibo_filename := "";
     amiibo_in_range := false |}.

Definition set_nfc_tag_state (s : TagState.t) (nfc : Module) : Module :=
  {| tag_in_range_event := tag_in_range_event nfc;
     tag_out_of_range_event := tag_out_of_range_event nfc;
     nfc_tag_state := s;
     nfc_status := nfc_status nfc;
     amiibo_data := amiibo_data nfc;
     amiibo_decrypted := amiibo_decrypted nfc;
     amiibo_filename := amiibo_filename nfc;
     amiibo_in_range := amiibo_in_range nfc |}.

Definition set_amiibo_data (d : list Z) (nfc : Module) : Module :=
  {| tag_in_range_event := tag_in_range_event nfc;
     tag_out_of_range_event := tag_out_of_range_event nfc;
     nfc_tag_state := nfc_tag_state nfc;
     nfc_status := nfc_status nfc;
     amiibo_data := d;
     amiibo_decrypted := amiibo_decrypted nfc;
     amiibo_filename := amiibo_filename nfc;
     amiibo_in_range := amiibo_in_range nfc |}.

Definition set_amiibo_in_range (b : bool) (nfc : Module) : Module :=
  {| tag_in_range_event := tag_in_range_event nfc;
     tag_out_of_range_event := tag_out_of_range_event nfc;
     nfc_tag_state := nfc_tag_state nfc;
     nfc_status := nfc_status nfc;
     amiibo_data := amiibo_data nfc;
     amiibo_decrypted := amiibo_decrypted nfc;
     amiibo_filename := amiibo_filename nfc;
     amiibo_in_range := b |}.

Definition signal_tag_in_range_event (nfc : Module) : Module :=
  {| tag_in_range_event := Signal (tag_in_range_event nfc);
     tag_out_of_range_event := tag_out_of_range_event nfc;
     nfc_tag_state := nfc_tag_state nfc;
     nfc_status := nfc_status nfc;
     amiibo_data := amiibo_data nfc;
     amiibo_decrypted := amiibo_decrypted nfc;
     amiibo_filename := amiibo_filename nfc;
     amiibo_in_range := amiibo_in_range nfc |}.

Definition signal_tag_out_of_range_event (nfc : Module) : Module :=
  {| tag_in_range_event := tag_in_range_event nfc;
     tag_out_of_range_event := Signal (tag_out_of_range_event nfc);
     nfc_tag_state := nfc_tag_state nfc;
     nfc_status := nfc_status nfc;
     amiibo_data := amiibo_data nfc;
     amiibo_decrypted := amiibo_decrypted nfc;
     amiibo_filename := amiibo_filename nfc;
     amiibo_in_range := amiibo_in_range nfc |}.

(** [void Module::SyncTagState()]: sync nfc_tag_state with amiibo_in_range
    and signal events on state change. *)
Definition SyncTagState (nfc : Module) : Module :=
  if decide (amiibo_in_range nfc = true ∧
             (nfc_tag_state nfc = TagState.TagOutOfRange ∨
              nfc_tag_state nfc = TagState.Scanning))
  then signal_tag_in_range_event (set_nfc_tag_state TagState.TagInRange nfc)
  else if decide (amiibo_in_range nfc = false ∧
                  (nfc_tag_state nfc = TagState.TagInRange ∨
                   nfc_tag_state nfc = TagState.TagDataLoaded ∨
                   nfc_tag_state nfc = TagState.Unknown6))
  then signal_tag_out_of_range_event
         (set_nfc_tag_state TagState.TagOutOfRange nfc)
  else nfc.

(** [void Module::Interface::RemoveAmiibo()] *)
Definition RemoveAmiibo (nfc : Module) : Module :=
  SyncTagState (set_amiibo_in_range false nfc).

(** [bool Module::Interface::LoadAmiibo(const std::string& fullpath)] *)
Definition LoadAmiibo (fs : FileSystem) (fullpath : string) (nfc : Module)
  : Module * bool :=
  match open_rb fs fullpath with
  | None => (nfc, false)
  | Some content =>
      match ReadBytes content AmiiboDataDec.sizeof with
      | None => (nfc, false)
      | Some amiibo_data =>
          let nfc1 :=
            {| tag_in_range_event := tag_in_range_event nfc;
               tag_out_of_range_event := tag_out_of_range_event nfc;
               nfc_tag_state := nfc_tag_state nfc;
               nfc_status := nfc_status nfc;
               amiibo_data := amiibo_data;
               amiibo_decrypted :=
                 bool_decide
                   (get_u8 amiibo_data AmiiboDataDec.off_unknown3 = 0x02);
               amiibo_filename := fullpath;
               amiibo_in_range := true |} in
          (SyncTagState nfc1, true)
      end
  end.

(** *** Command handlers ([Module::Interface]) *)

Definition Handler : Type := Module → Module * option Reply.

Definition Initialize (param : Z) : Handler := λ nfc,
  if decide (nfc_tag_state nfc ≠ TagState.NotInitialized)
  then (nfc, Some invalid_state)
  else (set_nfc_tag_state TagState.NotScanning nfc,
        Some (status_only RESULT_SUCCESS)).

Definition Shutdown (param : Z) : Handler := λ nfc,
  (set_nfc_tag_state TagState.NotInitialized nfc,
   Some (status_only RESULT_SUCCESS)).

Definition StartCommunication : Handler := λ nfc,
  (nfc, Some (status_only RESULT_SUCCESS)).

Definition StopCommunication : Handler := λ nfc,
  (nfc, Some (status_only RESULT_SUCCESS)).

Definition StartTagScanning (in_val : Z) : Handler := λ nfc,
  if decide (nfc_tag_state nfc ≠ TagState.NotScanning ∧
             nfc_tag_state nfc ≠ TagState.TagOutOfRange)
  then (nfc, Some invalid_state)
  else (SyncTagState (set_nfc_tag_state TagState.Scanning nfc),
        Some (status_only RESULT_SUCCESS)).

Definition GetTagInfo : Handler := λ nfc,
  if decide (nfc_tag_state nfc ≠ TagState.TagInRange ∧
             nfc_tag_state nfc ≠ TagState.TagDataLoaded ∧
             nfc_tag_state nfc ≠ TagState.Unknown6)
  then (nfc, Some invalid_state)
  else
    let uuid_off :=
      if negb (amiibo_decrypted nfc) then AmiiboDataEnc.off_uuid
      else AmiiboDataDec.off_uuid in
    let uuid := get_bytes (amiibo_data nfc) uuid_off AmiiboDataDec.size_uuid in
    let tag_info :=
      {| TagInfo.id := memcpy (replicate TagInfo.size_id 0) 0 uuid
                              AmiiboDataDec.size_uuid;
         TagInfo.id_offset_size := Z.of_nat AmiiboDataDec.size_uuid;
         TagInfo.unk1 := 0x0;
         TagInfo.unk2 := 0x2 |} in
    (nfc, Some {| result := RESULT_SUCCESS; payload := RawTagInfo tag_info |}).

Definition GetAmiiboSettings : Handler := λ nfc,
  let amiibo := amiibo_data nfc in
  if negb (amiibo_decrypted nfc) then (nfc, None)
  else if negb (flag_settings_initted (get_u8 amiibo AmiiboDataDec.off_flags))
  then (nfc, Some {| result := nfc_error ErrCodes.AmiiboNotSetup;
                     payload := RawAmiiboSettings AmiiboSettings.zero |})
  else
    let setup_date := get_u16_be amiibo AmiiboDataDec.off_setup_date in
    let amiibo_settings :=
      {| AmiiboSettings.mii :=
           memcpy (replicate AmiiboSettings.size_mii 0) 0
                  (get_bytes amiibo AmiiboDataDec.off_mii
                             AmiiboSettings.size_mii)
                  AmiiboSettings.size_mii;
         AmiiboSettings.nickname :=
           memcpy (replicate AmiiboSettings.size_nickname 0) 0
                  (get_bytes amiibo AmiiboDataDec.off_nickname
                             AmiiboSettings.size_nickname)
                  AmiiboSettings.size_nickname;
         AmiiboSettings.flags :=
           u8 (Z.land (get_u8 amiibo AmiiboDataDec.off_flags) 0xF);
         AmiiboSettings.country := get_u8 amiibo AmiiboDataDec.off_country;
         AmiiboSettings.setup_day := unpack_date_day setup_date;
         AmiiboSettings.setup_month := unpack_date_month setup_date;
         AmiiboSettings.setup_year := unpack_date_year setup_date;
         AmiiboSettings.dummy := replicate AmiiboSettings.size_dummy 0 |} in
    (nfc, Some {| result := RESULT_SUCCESS;
                  payload := RawAmiiboSettings amiibo_settings |}).

Definition OpenAppData (app_id : Z) : Handler := λ nfc,
  if negb (amiibo_decrypted nfc) then (nfc, None)
  else
    let amiibo := amiibo_data nfc in
    if decide (app_id ≠ get_u32_be amiibo AmiiboDataDec.off_app_id)
    then (nfc, Some (status_only (nfc_error ErrCodes.AppIdMismatch)))
    else if negb (flag_appdata_initted (get_u8 amiibo AmiiboDataDec.off_flags))
    then (nfc, Some (status_only (nfc_error ErrCodes.AppDataUninitialized)))
    else (nfc, Some (status_only RESULT_SUCCESS)).

(** The only handler that can write outside [amiibo_data]: [size] is not
    clamped, so [memcpy] runs past the end of the array when
    [off_app_data + size] exceeds its 0x21C bytes.  That is undefined
    behaviour, rendered as [None]. *)
Definition InitializeWriteAppData (app_id size : Z) (buffer : list Z)
  (nfc : Module) : option (Module * option Reply) :=
  if negb (amiibo_decrypted nfc) then Some (nfc, None)
  else if decide (size ≠ Z.of_nat (length buffer))
  then Some (nfc, Some (status_only RESULT_SUCCESS))
  else if decide (AmiiboDataDec.off_app_data + Z.to_nat size
                  ≤ AmiiboDataDec.sizeof)%nat
  then
    let d := memcpy (amiibo_data nfc) AmiiboDataDec.off_app_data buffer
                    (Z.to_nat size) in
    let d := set_u32_be d AmiiboDataDec.off_app_id app_id in
    Some (set_amiibo_data d nfc, Some (status_only RESULT_SUCCESS))
  else None.

Definition ReadAppData : Handler := λ nfc,
  if negb (amiibo_decrypted nfc) then (nfc, None)
  else if decide (nfc_tag_state nfc = TagState.NotInitialized)
  then (nfc, Some invalid_state)
  else
    let buffer := get_bytes (amiibo_data nfc) AmiiboDataDec.off_app_data
                            AmiiboDataDec.size_app_data in
    (set_nfc_tag_state TagState.TagDataLoaded nfc,
     Some {| result := RESULT_SUCCESS; payload := StaticBuffer buffer |}).

Definition WriteAppData (size : Z) (dummy buffer : list Z) : Handler := λ nfc,
  if negb (amiibo_decrypted nfc) then (nfc, None)
  else if decide (nfc_tag_state nfc = TagState.NotInitialized)
  then (nfc, Some invalid_state)
  else
    let capacity := Z.of_nat AmiiboDataDec.size_app_data in
    let size :=
      if decide (size ≠ capacity)
      then (if decide (capacity < size) then capacity else size)
      else size in
    let nfc1 :=
      if decide (size ≠ Z.of_nat (length buffer)) then nfc
      else set_amiibo_data
             (memcpy (amiibo_data nfc) AmiiboDataDec.off_app_data buffer
                     (Z.to_nat size)) nfc in
    (set_nfc_tag_state TagState.TagDataLoaded nfc1,
     Some (status_only RESULT_SUCCESS)).

Definition GetAmiiboConfig : Handler := λ nfc,
  let amiibo := amiibo_data nfc in
  let amiibo_config :=
    if negb (amiibo_decrypted nfc) then
      {| AmiiboConfig.last_write_year := 2014;
         AmiiboConfig.last_write_month := 11;
         AmiiboConfig.last_write_day := 21;
         AmiiboConfig.write_count := 1;
         AmiiboConfig.char_id := get_u16_le amiibo AmiiboDataEnc.off_char_id;
         AmiiboConfig.char_variant :=
           get_u8 amiibo AmiiboDataEnc.off_char_variant;
         AmiiboConfig.series := get_u8 amiibo AmiiboDataEnc.off_series;
         AmiiboConfig.model_number :=
           get_u16_be amiibo AmiiboDataEnc.off_model_number;
         AmiiboConfig.figure_type :=
           get_u8 amiibo AmiiboDataEnc.off_figure_type;
         AmiiboConfig.pagex4_byte3 := 0x0;
         AmiiboConfig.appdata_size := 0 |}
    else
      let last_write_date :=
        get_u16_be amiibo AmiiboDataDec.off_last_write_date in
      {| AmiiboConfig.last_write_year := unpack_date_year last_write_date;
         AmiiboConfig.last_write_month := unpack_date_month last_write_date;
         AmiiboConfig.last_write_day := unpack_date_day last_write_date;
         AmiiboConfig.write_count :=
           get_u16_be amiibo AmiiboDataDec.off_write_count;
         AmiiboConfig.char_id := get_u16_le amiibo AmiiboDataDec.off_char_id;
         AmiiboConfig.char_variant :=
           get_u8 amiibo AmiiboDataDec.off_char_variant;
         AmiiboConfig.series := get_u8 amiibo AmiiboDataDec.off_series;
         AmiiboConfig.model_number :=
           get_u16_be amiibo AmiiboDataDec.off_model_number;
         AmiiboConfig.figure_type :=
           get_u8 amiibo AmiiboDataDec.off_figure_type;
         AmiiboConfig.pagex4_byte3 := 0x0;
         AmiiboConfig.appdata_size :=
           Z.of_nat AmiiboDataDec.size_app_data |} in
  (nfc, Some {| result := RESULT_SUCCESS;
                payload := RawAmiiboConfig amiibo_config |}).

Definition StopTagScanning : Handler := λ nfc,
  if decide (nfc_tag_state nfc = TagState.NotInitialized ∨
             nfc_tag_state nfc = TagState.NotScanning)
  then (nfc, Some invalid_state)
  else (set_nfc_tag_state TagState.NotScanning nfc,
        Some (status_only RESULT_SUCCESS)).

Definition LoadAmiiboData : Handler := λ nfc,
  (set_nfc_tag_state TagState.TagDataLoaded nfc,
   Some (status_only RESULT_SUCCESS)).

Definition ResetTagScanState : Handler := λ nfc,
  if decide (nfc_tag_state nfc ≠ TagState.TagDataLoaded ∧
             nfc_tag_state nfc ≠ TagState.Unknown6)
  then (nfc, Some invalid_state)
  else (SyncTagState (set_nfc_tag_state TagState.TagInRange nfc),
        Some (status_only RESULT_SUCCESS)).

(** The metadata update the handler applies to the record before it looks
    at the file: [last_write_date = pack_date(11, 21, 2014)] and
    [write_count++] (a 16-bit field). *)
Definition update_metadata (amiibo : list Z) : list Z :=
  let d := set_u16_be amiibo AmiiboDataDec.off_last_write_date
                      (pack_date 11 21 2014) in
  set_u16_be d AmiiboDataDec.off_write_count
             (u16 (get_u16_be d AmiiboDataDec.off_write_count + 1)).

Definition UpdateStoredAmiiboData (fs : FileSystem) (nfc : Module)
  : FileSystem * Module * option Reply :=
  if decide (nfc_tag_state nfc ≠ TagState.TagDataLoaded)
  then (fs, nfc, Some invalid_state)
  else if negb (amiibo_decrypted nfc)
  then (fs, nfc, Some invalid_state)
  else if decide (amiibo_filename nfc = "")
  then (fs, nfc, Some invalid_state)
  else
    let amiibo_file := open_wb fs (amiibo_filename nfc) in
    let amiibo := update_metadata (amiibo_data nfc) in
    let nfc1 := set_amiibo_data amiibo nfc in
    let fs1 :=
      match amiibo_file with
      | None => fs
      | Some fs_open =>
          fst (WriteBytes fs_open (amiibo_filename nfc)
                          (get_bytes amiibo 0 AmiiboDataDec.sizeof))
      end in
    (fs1, RemoveAmiibo nfc1, Some (status_only RESULT_SUCCESS)).

Definition GetTagInRangeEvent : Handler := λ nfc,
  if decide (nfc_tag_state nfc ≠ TagState.NotScanning)
  then (nfc, Some invalid_state)
  else (nfc, Some {| result := RESULT_SUCCESS;
                     payload := CopyObjects tag_in_range_event_ref |}).

Definition GetTagOutOfRangeEvent : Handler := λ nfc,
  if decide (nfc_tag_state nfc ≠ TagState.NotScanning)
  then (nfc, Some invalid_state)
  else (nfc, Some {| result := RESULT_SUCCESS;
                     payload := CopyObjects tag_out_of_range_event_ref |}).

Definition GetTagState : Handler := λ nfc,
  (nfc, Some {| result := RESULT_SUCCESS;
                payload := EnumTagState (nfc_tag_state nfc) |}).

Definition CommunicationGetStatus : Handler := λ nfc,
  (nfc, Some {| result := RESULT_SUCCESS;
                payload := EnumCommunicationStatus (nfc_status nfc) |}).

Definition Unknown0x1A : Handler := λ nfc,
  if decide (nfc_tag_state nfc ≠ TagState.TagInRange)
  then (nfc, Some invalid_state)
  else (set_nfc_tag_state TagState.Unknown6 nfc,
        Some (status_only RESULT_SUCCESS)).

Definition GetIdentificationBlock : Handler := λ nfc,
  if decide (nfc_tag_state nfc ≠ TagState.TagDataLoaded ∧
             nfc_tag_state nfc ≠ TagState.Unknown6)
  then (nfc, Some invalid_state)
  else
    let amiibo := amiibo_data nfc in
    let reply :=
      if negb (amiibo_decrypted nfc) then
        {| IdentificationBlockReply.char_id :=
             get_u16_le amiibo AmiiboDataEnc.off_char_id;
           IdentificationBlockReply.char_variant :=
             get_u8 amiibo AmiiboDataEnc.off_char_variant;
           IdentificationBlockReply.series :=
             get_u8 amiibo AmiiboDataEnc.off_series;
           IdentificationBlockReply.model_number :=
             get_u16_be amiibo AmiiboDataEnc.off_model_number;
           IdentificationBlockReply.figure_type :=
             get_u8 amiibo AmiiboDataEnc.off_figure_type |}
      else
        {| IdentificationBlockReply.char_id :=
             get_u16_le amiibo AmiiboDataDec.off_char_id;
           IdentificationBlockReply.char_variant :=
             get_u8 amiibo AmiiboDataDec.off_char_variant;
           IdentificationBlockReply.series :=
             get_u8 amiibo AmiiboDataDec.off_series;
           IdentificationBlockReply.model_number :=
             get_u16_be amiibo AmiiboDataDec.off_model_number;
           IdentificationBlockReply.figure_type :=
             get_u8 amiibo AmiiboDataDec.off_figure_type |} in
    (nfc, Some {| result := RESULT_SUCCESS;
                  payload := RawIdentificationBlock reply |}).

(** *** The command surface *)

(** One constructor per service function of [Module::Interface], carrying
    the arguments its [IPC::RequestParser] pops. *)
Inductive Command :=
  | CmdInitialize (param : Z)
  | CmdShutdown (param : Z)
  | CmdStartCommunication
  | CmdStopCommunication
  | CmdStartTagScanning (in_val : Z)
  | CmdStopTagScanning
  | CmdLoadAmiiboData
  | CmdResetTagScanState
  | CmdUpdateStoredAmiiboData
  | CmdGetTagInRangeEvent
  | CmdGetTagOutOfRangeEvent
  | CmdGetTagState
  | CmdCommunicationGetStatus
  | CmdGetTagInfo
  | CmdOpenAppData (app_id : Z)
  | CmdInitializeWriteAppData (app_id size : Z) (buffer : list Z)
  | CmdReadAppData
  | CmdWriteAppData (size : Z) (dummy buffer : list Z)
  | CmdGetAmiiboSettings
  | CmdGetAmiiboConfig
  | CmdUnknown0x1A
  | CmdGetIdentificationBlock.

(** The outcome of one command: the file system and module afterwards and
    the reply, if one was built; [None] when the handler's behaviour is
    undefined. *)
Definition Outcome : Type := option (FileSystem * Module * option Reply).

Definition lift (fs : FileSystem) (r : Module * option Reply) : Outcome :=
  Some (fs, fst r, snd r).

Definition handle (c : Command) (fs : FileSystem) (nfc : Module) : Outcome :=
  match c with
  | CmdInitialize param => lift fs (Initialize param nfc)
  | CmdShutdown param => lift fs (Shutdown param nfc)
  | CmdStartCommunication => lift fs (StartCommunication nfc)
  | CmdStopCommunication => lift fs (StopCommunication nfc)
  | CmdStartTagScanning in_val => lift fs (StartTagScanning in_val nfc)
  | CmdStopTagScanning => lift fs (StopTagScanning nfc)
  | CmdLoadAmiiboData => lift fs (LoadAmiiboData nfc)
  | CmdResetTagScanState => lift fs (ResetTagScanState nfc)
  | CmdUpdateStoredAmiiboData => Some (UpdateStoredAmiiboData fs nfc)
  | CmdGetTagInRangeEvent => lift fs (GetTagInRangeEvent nfc)
  | CmdGetTagOutOfRangeEvent => lift fs (GetTagOutOfRangeEvent nfc)
  | CmdGetTagState => lift fs (GetTagState nfc)
  | CmdCommunicationGetStatus => lift fs (CommunicationGetStatus nfc)
  | CmdGetTagInfo => lift fs (GetTagInfo nfc)
  | CmdOpenAppData app_id => lift fs (OpenAppData app_id nfc)
  | CmdInitializeWriteAppData app_id size buffer =>
      match InitializeWriteAppData app_id size buffer nfc with
      | Some r => lift fs r
      | None => None
      end
  | CmdReadAppData => lift fs (ReadAppData nfc)
  | CmdWriteAppData size dummy buffer =>
      lift fs (WriteAppData size dummy buffer nfc)
  | CmdGetAmiiboSettings => lift fs (GetAmiiboSettings nfc)
  | CmdGetAmiiboConfig => lift fs (GetAmiiboConfig nfc)
  | CmdUnknown0x1A => lift fs (Unknown0x1A nfc)
  | CmdGetIdentificationBlock => lift fs (GetIdentificationBlock nfc)
  end.

End NFC.

(** ** Vocabulary of the specification *)

Module Spec.
Import Kernel FileUtil NFC.

(** The accepted-state set each gated operation declares; [None] for the
    operations that declare none.  Written from the specification's table,
    to be compared with what the handlers do. *)
Definition accepted_states (c : Command) : option (TagState.t → bool) :=
  match c with
  | CmdInitialize _ =>
      Some (λ s, bool_decide (s ∈ [TagState.NotInitialized]))
  | CmdStartTagScanning _ =>
      Some (λ s, bool_decide (s ∈ [TagState.NotScanning;
                                    TagState.TagOutOfRange]))
  | CmdStopTagScanning =>
      Some (λ s, bool_decide (s ∉ [TagState.NotInitialized;
                                    TagState.NotScanning]))
  | CmdResetTagScanState =>
      Some (λ s, bool_decide (s ∈ [TagState.TagDataLoaded;
                                    TagState.Unknown6]))
  | CmdGetTagInfo =>
      Some (λ s, bool_decide (s ∈ [TagState.TagInRange;
                                    TagState.TagDataLoaded;
                                    TagState.Unknown6]))
  | CmdGetTagInRangeEvent | CmdGetTagOutOfRangeEvent =>
      Some (λ s, bool_decide (s ∈ [TagState.NotScanning]))
  | _ => None
  end.

(** Everything of the module except the session state is the same. *)
Definition same_but_state (nfc nfc' : Module) : Prop :=
  tag_in_range_event nfc' = tag_in_range_event nfc ∧
  tag_out_of_range_event nfc' = tag_out_of_range_event nfc ∧
  nfc_status nfc' = nfc_status nfc ∧
  amiibo_data nfc' = amiibo_data nfc ∧
  amiibo_decrypted nfc' = amiibo_decrypted nfc ∧
  amiibo_filename nfc' = amiibo_filename nfc ∧
  amiibo_in_range nfc' = amiibo_in_range nfc.

(** The tag record, its classification, its path, its presence flag and
    the communication status are the same (state and events may differ). *)
Definition same_tag (nfc nfc' : Module) : Prop :=
  nfc_status nfc' = nfc_status nfc ∧
  amiibo_data nfc' = amiibo_data nfc ∧
  amiibo_decrypted nfc' = amiibo_decrypted nfc ∧
  amiibo_filename nfc' = amiibo_filename nfc ∧
  amiibo_in_range nfc' = amiibo_in_range nfc.

(** Everything of the module except the session state and the bytes of the
    tag record is the same. *)
Definition same_but_state_and_record (nfc nfc' : Module) : Prop :=
  tag_in_range_event nfc' = tag_in_range_event nfc ∧
  tag_out_of_range_event nfc' = tag_out_of_range_event nfc ∧
  nfc_status nfc' = nfc_status nfc ∧
  amiibo_decrypted nfc' = amiibo_decrypted nfc ∧
  amiibo_filename nfc' = amiibo_filename nfc ∧
  amiibo_in_range nfc' = amiibo_in_range nfc.

(** [e'] is [e] after exactly one more [Signal]. *)
Definition signaled_once (e e' : Event) : Prop :=
  signaled e' = true ∧ signal_count e' = S (signal_count e).

(** The handlers that start by testing [amiibo_decrypted]. *)
Definition requires_decrypted (c : Command) : bool :=
  match c with
  | CmdGetAmiiboSettings | CmdOpenAppData _ | CmdInitializeWriteAppData _ _ _
  | CmdReadAppData | CmdWriteAppData _ _ _ => true
  | _ => false
  end.

(** A status that reports an error. *)
Definition is_error (r : ResultCode) : Prop := r ≠ RESULT_SUCCESS.

(** The value the date-packing formula denotes, without any conversion. *)
Definition pack_date_formula (m d y : Z) : Z :=
  Z.lor (Z.lor (Z.shiftl (Z.land d 0x1F) 11) (Z.shiftl (Z.land m 0x0F) 7))
        (Z.land (y - 2000) 0x7F).

(** The three bit fields of a packed date. *)
Definition day_bits (d : Z) : Z := Z.shiftl (Z.land d 0x1F) 11.
Definition month_bits (m : Z) : Z := Z.shiftl (Z.land m 0x0F) 7.
Definition year_bits (y : Z) : Z := Z.land (y - 2000) 0x7F.

(** Each field fits in 16 bits, is kept by its own mask, is erased by the
    two other masks, and shifts back to the number it was built from. *)
Definition day_bits_ok (d : Z) : bool :=
  (Z.land (day_bits d) 0xFFFF =? day_bits d)
  && (Z.shiftr (Z.land (day_bits d) 0xF800) 11 =? d)
  && (Z.land (day_bits d) 0x780 =? 0)
  && (Z.land (day_bits d) 0x7F =? 0).

Definition month_bits_ok (m : Z) : bool :=
  (Z.land (month_bits m) 0xFFFF =? month_bits m)
  && (Z.land (month_bits m) 0xF800 =? 0)
  && (Z.shiftr (Z.land (month_bits m) 0x780) 7 =? m)
  && (Z.land (month_bits m) 0x7F =? 0).

Definition year_bits_ok (y : Z) : bool :=
  (Z.land (year_bits y) 0xFFFF =? year_bits y)
  && (Z.land (year_bits y) 0xF800 =? 0)
  && (Z.land (year_bits y) 0x780 =? 0)
  && (Z.land (year_bits y) 0x7F + 2000 =? y).
End Spec.

(** ** Concrete states used to run the handlers *)

Module Examples.
Import Kernel FileUtil NFC.

(** A blank 0x21C-byte image and one whose discriminant byte is 0x02. *)
Definition blank_image : list Z := replicate AmiiboDataDec.sizeof 0.
Definition decrypted_image : list Z :=
  <[AmiiboDataDec.off_unknown3 := 0x02]> blank_image.

Definition disk : FileSystem :=
  {| files := {[ "amiibo.bin" := decrypted_image ]};
     unwritable := ∅;
     write_fails := ∅ |}.

Definition read_only_disk : FileSystem :=
  {| files := {[ "amiibo.bin" := decrypted_image ]};
     unwritable := {[ "amiibo.bin" ]};
     write_fails := ∅ |}.

(** A disk holding an image whose discriminant byte is not 0x02. *)
Definition raw_disk : FileSystem :=
  {| files := {[ "raw.bin" := blank_image ]};
     unwritable := ∅;
     write_fails := ∅ |}.

(** The module as constructed, before any tag was loaded. *)
Definition fresh : Module := Module_new blank_image.

(** Initialize, StartTagScanning, then a tag is loaded from the disk. *)
Definition scanning : Module :=
  (StartTagScanning 0 (Initialize 1 fresh).1).1.
Definition tag_in_range : Module := (LoadAmiibo disk "amiibo.bin" scanning).1.
Definition tag_data_loaded : Module := (LoadAmiiboData tag_in_range).1.

(** The same session with the raw image loaded instead. *)
Definition raw_tag_in_range : Module :=
  (LoadAmiibo raw_disk "raw.bin" scanning).1.

(** A tag is present while the session is still in state Scanning. *)
Definition tag_present_while_scanning : Module :=
  set_amiibo_in_range true scanning.
End Examples.

(** ** Further vocabulary *)

Module Props.
Import Kernel FileUtil NFC Spec.

(** Between [nfc] and [nfc'] no event was signaled, or exactly one of the
    two was signaled exactly once. *)
Definition at_most_one_signal (nfc nfc' : Module) : Prop :=
  (tag_in_range_event nfc' = tag_in_range_event nfc
   ∧ tag_out_of_range_event nfc' = tag_out_of_range_event nfc)
  ∨ (signaled_once (tag_in_range_event nfc) (tag_in_range_event nfc')
     ∧ tag_out_of_range_event nfc' = tag_out_of_range_event nfc)
  ∨ (tag_in_range_event nfc' = tag_in_range_event nfc
     ∧ signaled_once (tag_out_of_range_event nfc)
                     (tag_out_of_range_event nfc')).

(** The cached classification agrees with the discriminant byte of the
    record as it is now. *)
Definition classification_current (nfc : Module) : Prop :=
  amiibo_decrypted nfc
  = bool_decide (get_u8 (amiibo_data nfc) 0x1E3 = 0x02).

(** No disjointness of the three date fields is lost by writing them as
    products. *)
Definition day_month_disjoint_at (d m : Z) : bool :=
  Z.land (d * 2048) (m * 128) =? 0.
Definition day_year_disjoint_at (d y : Z) : bool :=
  Z.land (d * 2048) y =? 0.
Definition month_year_disjoint_at (m y : Z) : bool :=
  Z.land (m * 128) y =? 0.
End Props.

(** ** Save states *)

Module Savestate.
Import Kernel NFC.

(** The members [Module::serialize] hands to the archive, in its order.
    [amiibo_filename] is not among them. *)
Record Archive := {
  ar_tag_in_range_event : Event;
  ar_tag_out_of_range_event : Event;
  ar_nfc_tag_state : TagState.t;
  ar_nfc_status : CommunicationStatus.t;
  ar_amiibo_data : list Z;
  ar_amiibo_decrypted : bool;
  ar_amiibo_in_range : bool
}.

(** [Module::serialize] with a saving archive. *)
Definition save (nfc : Module) : Archive :=
  {| ar_tag_in_range_event := tag_in_range_event nfc;
     ar_tag_out_of_range_event := tag_out_of_range_event nfc;
     ar_nfc_tag_state := nfc_tag_state nfc;
     ar_nfc_status := nfc_status nfc;
     ar_amiibo_data := amiibo_data nfc;
     ar_amiibo_decrypted := amiibo_decrypted nfc;
     ar_amiibo_in_range := amiibo_in_range nfc |}.

(** [Module::serialize] with a loading archive, run on the object [nfc]:
    each listed member is read from the archive, the others keep the value
    the object had. *)
Definition load (ar : Archive) (nfc : Module) : Module :=
  {| tag_in_range_event := ar_tag_in_range_event ar;
     tag_out_of_range_event := ar_tag_out_of_range_event ar;
     nfc_tag_state := ar_nfc_tag_state ar;
     nfc_status := ar_nfc_status ar;
     amiibo_data := ar_amiibo_data ar;
     amiibo_decrypted := ar_amiibo_decrypted ar;
     amiibo_filename := amiibo_filename nfc;
     amiibo_in_range := ar_amiibo_in_range ar |}.

(** An outcome whose module went through a save and a load into
    [target]. *)
Definition rebase (target : Module) (o : Outcome) : Outcome :=
  match o with
  | Some (fs, nfc, r) => Some (fs, load (save nfc) target, r)
  | None => None
  end.
End Savestate.

(** * Properties *)

(** ** The date codec *)

Section Codec.
Import Spec.

Lemma forallb_seqZ (f : Z → bool) (lo n x : Z) :
  forallb f (seqZ lo n) = true → lo <= x < lo + n → f x = true.
Proof.
  intros H Hx. apply Is_true_true, forallb_True in H.
  rewrite Forall_forall in H. apply Is_true_true, H, elem_of_seqZ, Hx.
Qed.

Ltac split_andb H :=
  repeat (apply andb_true_iff in H; destruct H as [H ?]);
  repeat match goal with E : (_ =? _) = true |- _ => apply Z.eqb_eq in E end.

Lemma day_bits_facts (d : Z) :
  1 <= d <= 31 →
  Z.land (day_bits d) 0xFFFF = day_bits d
  ∧ Z.shiftr (Z.land (day_bits d) 0xF800) 11 = d
  ∧ Z.land (day_bits d) 0x780 = 0
  ∧ Z.land (day_bits d) 0x7F = 0.
Proof.
  intros Hd.
  assert (H : day_bits_ok d = true).
  { apply (forallb_seqZ day_bits_ok 1 31); [reflexivity | lia]. }
  unfold day_bits_ok in H. split_andb H. auto.
Qed.

Lemma month_bits_facts (m : Z) :
  1 <= m <= 12 →
  Z.land (month_bits m) 0xFFFF = month_bits m
  ∧ Z.land (month_bits m) 0xF800 = 0
  ∧ Z.shiftr (Z.land (month_bits m) 0x780) 7 = m
  ∧ Z.land (month_bits m) 0x7F = 0.
Proof.
  intros Hm.
  assert (H : month_bits_ok m = true).
  { apply (forallb_seqZ month_bits_ok 1 12); [reflexivity | lia]. }
  unfold month_bits_ok in H. split_andb H. auto.
Qed.

Lemma year_bits_facts (y : Z) :
  2000 <= y <= 2127 →
  Z.land (year_bits y) 0xFFFF = year_bits y
  ∧ Z.land (year_bits y) 0xF800 = 0
  ∧ Z.land (year_bits y) 0x780 = 0
  ∧ Z.land (year_bits y) 0x7F + 2000 = y.
Proof.
  intros Hy.
  assert (H : year_bits_ok y = true).
  { apply (forallb_seqZ year_bits_ok 2000 128); [reflexivity | lia]. }
  unfold year_bits_ok in H. split_andb H. auto.
Qed.

Lemma u16_land (x : Z) : u16 x = Z.land x 0xFFFF.
Proof. unfold u16. symmetry. apply (Z.land_ones x 16). lia. Qed.

(** In the calendar range the 16-bit conversion in [pack_date] loses
    nothing. *)
Lemma pack_date_fields (m d y : Z) :
  1 <= d <= 31 → 1 <= m <= 12 → 2000 <= y <= 2127 →
  pack_date m d y = Z.lor (Z.lor (day_bits d) (month_bits m)) (year_bits y).
Proof.
  intros Hd Hm Hy. unfold pack_date. rewrite u16_land.
  fold (day_bits d) (month_bits m) (year_bits y).
  rewrite !Z.land_lor_distr_l.
  destruct (day_bits_facts d Hd) as (-> & _).
  destruct (month_bits_facts m Hm) as (-> & _).
  destruct (year_bits_facts y Hy) as (-> & _).
  reflexivity.
Qed.

(** C6. Date packing round-trips: for a day in 1..31, a month in 1..12 and
    a year in 2000..2127, [pack_date] is the value of the bit formula
    [((d & 0x1F) << 11) | ((m & 0x0F) << 7) | ((y - 2000) & 0x7F)], and the
    three unpack functions give back the day, the month and the year, the
    year being [(value & 0x7F) + 2000]. *)
Theorem pack_date_roundtrip (m d y : Z) :
  1 <= d <= 31 → 1 <= m <= 12 → 2000 <= y <= 2127 →
  pack_date m d y
  = Z.lor (Z.lor (Z.shiftl (Z.land d 0x1F) 11) (Z.shiftl (Z.land m 0x0F) 7))
          (Z.land (y - 2000) 0x7F)
  ∧ unpack_date_day (pack_date m d y) = d
  ∧ unpack_date_month (pack_date m d y) = m
  ∧ unpack_date_year (pack_date m d y) = y
  ∧ unpack_date_year (pack_date m d y) = Z.land (pack_date m d y) 0x7F + 2000.
Proof.
  intros Hd Hm Hy.
  pose proof (pack_date_fields m d y Hd Hm Hy) as Hp.
  destruct (day_bits_facts d Hd) as (_ & Hd1 & Hd2 & Hd3).
  destruct (month_bits_facts m Hm) as (_ & Hm1 & Hm2 & Hm3).
  destruct (year_bits_facts y Hy) as (_ & Hy1 & Hy2 & Hy3).
  assert (Hday : Z.shiftr (Z.land (pack_date m d y) 0xF800) 11 = d).
  { rewrite Hp, !Z.land_lor_distr_l, Hm1, Hy1, !Z.lor_0_r. exact Hd1. }
  assert (Hmonth : Z.shiftr (Z.land (pack_date m d y) 0x780) 7 = m).
  { rewrite Hp, !Z.land_lor_distr_l, Hd2, Hy2, Z.lor_0_l, Z.lor_0_r.
    exact Hm2. }
  assert (Hyear : Z.land (pack_date m d y) 0x7F + 2000 = y).
  { rewrite Hp, !Z.land_lor_distr_l, Hd3, Hm3, !Z.lor_0_l. exact Hy3. }
  split; [exact Hp |].
  unfold unpack_date_day, unpack_date_month, unpack_date_year, u8, u16.
  rewrite Hday, Hmonth, Hyear.
  repeat split; apply Z.mod_small; lia.
Qed.

Lemma pack_date_roundtrip_witness :
  pack_date 11 21 2014 = 0xAD8E
  ∧ unpack_date_day (pack_date 11 21 2014) = 21
  ∧ unpack_date_month (pack_date 11 21 2014) = 11
  ∧ unpack_date_year (pack_date 11 21 2014) = 2014.
Proof.
  destruct (pack_date_roundtrip 11 21 2014) as (H1 & H2 & H3 & H4 & _);
    [lia | lia | lia |].
  split; [exact H1 | split; [exact H2 | split; [exact H3 | exact H4]]].
Defined.

End Codec.

(** ** Layout checks *)

Section LayoutChecks.

(** The two [static_assert]s on the record sizes, and the offsets written
    in the comments of [struct AmiiboDataDec]. *)
Lemma layout_static_asserts :
  AmiiboDataEnc.sizeof = 0x21C%nat
  ∧ AmiiboDataDec.sizeof = 0x21C%nat
  ∧ AmiiboDataDec.off_flags = 0x2C%nat
  ∧ AmiiboDataDec.off_country = 0x2D%nat
  ∧ AmiiboDataDec.off_setup_date = 0x30%nat
  ∧ AmiiboDataDec.off_last_write_date = 0x32%nat
  ∧ AmiiboDataDec.off_nickname = 0x38%nat
  ∧ AmiiboDataDec.off_mii = 0x4C%nat
  ∧ AmiiboDataDec.off_write_count = 0xB4%nat
  ∧ AmiiboDataDec.off_app_id = 0xB6%nat
  ∧ AmiiboDataDec.off_app_data = 0xDC%nat
  ∧ AmiiboDataDec.off_uuid = 0x1D4%nat
  ∧ AmiiboDataDec.off_unknown3 = 0x1E3%nat.
Proof. repeat split. Qed.

End LayoutChecks.

(** ** The byte buffer *)

Section Bytes.
Implicit Types (d dst src : list Z) (off n i : nat) (v : Z).

Lemma memcpy_length dst off src n :
  (off + n ≤ length dst)%nat → (n ≤ length src)%nat →
  length (memcpy dst off src n) = length dst.
Proof.
  intros Hd Hs. unfold memcpy.
  rewrite !length_app, !length_take, length_drop. lia.
Qed.

Lemma memcpy_lookup_outside dst off src n i :
  (off + n ≤ length dst)%nat → (n ≤ length src)%nat →
  (i < off ∨ off + n ≤ i)%nat →
  memcpy dst off src n !! i = dst !! i.
Proof.
  intros Hd Hs Hi. unfold memcpy. destruct Hi as [Hi | Hi].
  - rewrite lookup_app_l by (rewrite length_take; lia).
    by rewrite lookup_take_lt.
  - rewrite lookup_app_r by (rewrite length_take; lia).
    rewrite lookup_app_r by (rewrite !length_take; lia).
    rewrite lookup_drop, !length_take. f_equal. lia.
Qed.

Lemma memcpy_get_bytes dst off src n :
  (off + n ≤ length dst)%nat → (n ≤ length src)%nat →
  get_bytes (memcpy dst off src n) off n = take n src.
Proof.
  intros Hd Hs. unfold get_bytes, memcpy.
  rewrite drop_app_length' by (rewrite length_take; lia).
  rewrite take_app_length' by (rewrite length_take; lia). done.
Qed.

Lemma memcpy_zeroed src n :
  memcpy (replicate n 0) 0 src n = take n src.
Proof.
  unfold memcpy. simpl. rewrite drop_replicate, Nat.sub_diag. simpl.
  by rewrite app_nil_r.
Qed.

Lemma get_u8_lookup d off v : d !! off = Some v → get_u8 d off = v.
Proof. unfold get_u8. by intros ->. Qed.

Lemma set_u16_be_length d off v : length (set_u16_be d off v) = length d.
Proof. unfold set_u16_be. by rewrite !length_insert. Qed.

Lemma set_u16_be_lookup_other d off v i :
  i ≠ off → i ≠ S off → set_u16_be d off v !! i = d !! i.
Proof.
  intros H1 H2. unfold set_u16_be.
  by rewrite !list_lookup_insert_ne.
Qed.

Lemma get_u16_be_set_u16_be d off v :
  (S off < length d)%nat → 0 <= v < 0x10000 →
  get_u16_be (set_u16_be d off v) off = v.
Proof.
  intros Hl Hv. unfold get_u16_be, set_u16_be.
  rewrite (get_u8_lookup _ off ((v / 0x100) mod 0x100)).
  2:{ rewrite list_lookup_insert_ne by lia.
      apply list_lookup_insert_eq. lia. }
  rewrite (get_u8_lookup _ (S off) (v mod 0x100)).
  2:{ apply list_lookup_insert_eq. rewrite length_insert. lia. }
  Z.div_mod_to_equations. lia.
Qed.

Lemma get_u16_be_set_u16_be_other d off off' v :
  off ≠ off' → off ≠ S off' → S off ≠ off' →
  get_u16_be (set_u16_be d off' v) off = get_u16_be d off.
Proof.
  intros H1 H2 H3. unfold get_u16_be, get_u8.
  rewrite !set_u16_be_lookup_other by lia. done.
Qed.

End Bytes.

(** ** The session state machine *)

Section StateMachine.
Import Kernel FileUtil NFC Spec.

(** C2. The reconciliation step. With the tag present and the state
    TagOutOfRange or Scanning, the state becomes TagInRange and the
    entered-range event is signaled exactly once. With the tag absent and
    the state TagInRange, TagDataLoaded or Unknown6, the state becomes
    TagOutOfRange and the left-range event is signaled exactly once. In
    both cases the other event and the tag data are untouched. In every
    other combination the module is unchanged: same state, no signal. *)
Theorem SyncTagState_transition (nfc : Module) :
  (amiibo_in_range nfc = true →
   nfc_tag_state nfc = TagState.TagOutOfRange
   ∨ nfc_tag_state nfc = TagState.Scanning →
   nfc_tag_state (SyncTagState nfc) = TagState.TagInRange
   ∧ signaled_once (tag_in_range_event nfc)
                   (tag_in_range_event (SyncTagState nfc))
   ∧ tag_out_of_range_event (SyncTagState nfc) = tag_out_of_range_event nfc
   ∧ same_tag nfc (SyncTagState nfc))
  ∧ (amiibo_in_range nfc = false →
     nfc_tag_state nfc = TagState.TagInRange
     ∨ nfc_tag_state nfc = TagState.TagDataLoaded
     ∨ nfc_tag_state nfc = TagState.Unknown6 →
     nfc_tag_state (SyncTagState nfc) = TagState.TagOutOfRange
     ∧ signaled_once (tag_out_of_range_event nfc)
                     (tag_out_of_range_event (SyncTagState nfc))
     ∧ tag_in_range_event (SyncTagState nfc) = tag_in_range_event nfc
     ∧ same_tag nfc (SyncTagState nfc))
  ∧ (¬ (amiibo_in_range nfc = true
        ∧ (nfc_tag_state nfc = TagState.TagOutOfRange
           ∨ nfc_tag_state nfc = TagState.Scanning)) →
     ¬ (amiibo_in_range nfc = false
        ∧ (nfc_tag_state nfc = TagState.TagInRange
           ∨ nfc_tag_state nfc = TagState.TagDataLoaded
           ∨ nfc_tag_state nfc = TagState.Unknown6)) →
     SyncTagState nfc = nfc).
Proof.
  unfold SyncTagState. split; [|split].
  - intros Hin Hst. rewrite decide_True by done.
    repeat split.
  - intros Hin Hst.
    rewrite decide_False; [rewrite decide_True by done; repeat split |].
    intros [Hin' _]. congruence.
  - intros H1 H2. by rewrite !decide_False.
Qed.

Lemma SyncTagState_transition_witness :
  nfc_tag_state (SyncTagState Examples.tag_present_while_scanning)
  = TagState.TagInRange
  ∧ signal_count
      (tag_in_range_event
         (SyncTagState Examples.tag_present_while_scanning)) = 1%nat.
Proof.
  destruct (proj1 (SyncTagState_transition
                     Examples.tag_present_while_scanning))
    as (Hs & [_ Hc] & _); [reflexivity | right; reflexivity |].
  split; [exact Hs | exact Hc].
Defined.

(** C1. State gating: a command that declares an accepted-state set,
    invoked from a state outside that set, replies CommandInvalidForState
    and leaves the whole module (state, record bytes, both events) and the
    file system as they were. *)
Theorem state_gating (c : Command) (accepts : TagState.t → bool)
    (fs : FileSystem) (nfc : Module) :
  accepted_states c = Some accepts →
  accepts (nfc_tag_state nfc) = false →
  handle c fs nfc
  = Some (fs, nfc,
          Some {| result := nfc_error ErrCodes.CommandInvalidForState;
                  payload := NoPayload |}).
Proof.
  intros Hc Hs.
  destruct c; simpl in Hc; try discriminate; injection Hc as <-;
    destruct nfc as [e1 e2 s st d dec fn r]; simpl in Hs;
    destruct s; vm_compute in Hs; try discriminate; reflexivity.
Qed.

Lemma state_gating_witness :
  handle (CmdStartTagScanning 0) Examples.disk Examples.fresh
  = Some (Examples.disk, Examples.fresh,
          Some {| result := nfc_error ErrCodes.CommandInvalidForState;
                  payload := NoPayload |}).
Proof.
  apply (state_gating (CmdStartTagScanning 0)
           (λ s, bool_decide (s ∈ [TagState.NotScanning;
                                    TagState.TagOutOfRange]))).
  - reflexivity.
  - reflexivity.
Defined.

Lemma SyncTagState_not_Unknown6 (nfc : Module) :
  nfc_tag_state nfc ≠ TagState.Unknown6 →
  nfc_tag_state (SyncTagState nfc) ≠ TagState.Unknown6.
Proof.
  intros H. unfold SyncTagState. repeat case_decide; simpl; done.
Qed.

Lemma handle_not_Unknown6 (c : Command) (fs fs' : FileSystem)
    (nfc nfc' : Module) (r : option Reply) :
  c ≠ CmdUnknown0x1A →
  nfc_tag_state nfc ≠ TagState.Unknown6 →
  handle c fs nfc = Some (fs', nfc', r) →
  nfc_tag_state nfc' ≠ TagState.Unknown6.
Proof.
  intros Hc Hs Hh.
  destruct c; try done; simpl in Hh; unfold lift in Hh.
  all: try (injection Hh as <- <- <-).
  all: cbv [Initialize Shutdown StartCommunication StopCommunication
            StartTagScanning StopTagScanning LoadAmiiboData ResetTagScanState
            GetTagInRangeEvent GetTagOutOfRangeEvent GetTagState
            CommunicationGetStatus GetTagInfo OpenAppData ReadAppData
            WriteAppData GetAmiiboSettings GetAmiiboConfig
            GetIdentificationBlock UpdateStoredAmiiboData RemoveAmiibo
            InitializeWriteAppData] in *.
  all: repeat first [case_decide | case_match]; simplify_eq; simpl; try done.
  all: try (apply SyncTagState_not_Unknown6; simpl; done).
Qed.

End StateMachine.

(** ** Persisting the record: UpdateStoredAmiiboData *)

Section Handlers.
Import Kernel FileUtil NFC Spec.

(** What [UpdateStoredAmiiboData] does to the module once its three
    preconditions hold does not depend on the file system. *)
Lemma UpdateStoredAmiiboData_module (fs : FileSystem) (nfc : Module) :
  nfc_tag_state nfc = TagState.TagDataLoaded →
  amiibo_decrypted nfc = true →
  amiibo_filename nfc ≠ "" →
  (UpdateStoredAmiiboData fs nfc).1.2
  = RemoveAmiibo (set_amiibo_data (update_metadata (amiibo_data nfc)) nfc)
  ∧ (UpdateStoredAmiiboData fs nfc).2 = Some (status_only RESULT_SUCCESS).
Proof.
  intros Hs Hd Hf. unfold UpdateStoredAmiiboData.
  rewrite decide_False by (by rewrite Hs; intros []).
  rewrite Hd. simpl. rewrite decide_False by done. done.
Qed.

Lemma update_metadata_length (d : list Z) :
  length (update_metadata d) = length d.
Proof. unfold update_metadata. by rewrite !set_u16_be_length. Qed.

Lemma update_metadata_last_write_date (d : list Z) :
  length d = 0x21C%nat →
  get_u16_be (update_metadata d) 0x32 = pack_date 11 21 2014.
Proof.
  intros Hl. unfold update_metadata.
  rewrite get_u16_be_set_u16_be_other
    by (unfold AmiiboDataDec.off_write_count; lia).
  apply get_u16_be_set_u16_be.
  - rewrite Hl. unfold AmiiboDataDec.off_last_write_date. lia.
  - by vm_compute.
Qed.

Lemma update_metadata_write_count (d : list Z) :
  length d = 0x21C%nat →
  get_u16_be (update_metadata d) 0xB4 = (get_u16_be d 0xB4 + 1) mod 0x10000.
Proof.
  intros Hl. unfold update_metadata.
  change AmiiboDataDec.off_write_count with 0xB4%nat.
  change AmiiboDataDec.off_last_write_date with 0x32%nat.
  rewrite get_u16_be_set_u16_be.
  - rewrite get_u16_be_set_u16_be_other by lia. done.
  - rewrite set_u16_be_length, Hl. lia.
  - unfold u16. apply Z.mod_pos_bound. lia.
Qed.

Lemma update_metadata_lookup_other (d : list Z) (i : nat) :
  i ∉ [0x32; 0x33; 0xB4; 0xB5]%nat →
  update_metadata d !! i = d !! i.
Proof.
  intros Hi. unfold update_metadata.
  change AmiiboDataDec.off_write_count with 0xB4%nat.
  change AmiiboDataDec.off_last_write_date with 0x32%nat.
  rewrite !set_u16_be_lookup_other; try done;
    intros ->; apply Hi; set_solver.
Qed.

Lemma RemoveAmiibo_from_TagDataLoaded (nfc : Module) :
  nfc_tag_state nfc = TagState.TagDataLoaded →
  amiibo_in_range (RemoveAmiibo nfc) = false
  ∧ nfc_tag_state (RemoveAmiibo nfc) = TagState.TagOutOfRange
  ∧ signaled_once (tag_out_of_range_event nfc)
                  (tag_out_of_range_event (RemoveAmiibo nfc))
  ∧ tag_in_range_event (RemoveAmiibo nfc) = tag_in_range_event nfc
  ∧ amiibo_data (RemoveAmiibo nfc) = amiibo_data nfc
  ∧ amiibo_filename (RemoveAmiibo nfc) = amiibo_filename nfc
  ∧ amiibo_decrypted (RemoveAmiibo nfc) = amiibo_decrypted nfc.
Proof.
  intros Hs. unfold RemoveAmiibo, SyncTagState. simpl. rewrite Hs.
  rewrite decide_True by auto. repeat split.
Qed.

(** C7. A successful UpdateStoredAmiiboData (state TagDataLoaded, decrypted
    record, non-empty path, and a path that can be opened and written):
    the reply is success; the record's last_write_date is
    [pack_date 11 21 2014]; its 16-bit write_count is one more than before
    (modulo 0x10000, so exactly one more below 0xFFFF);
    no other byte of the record changes; the file at the path then holds
    the full 0x21C-byte record; the tag is evicted, so the presence flag is
    false, the state is TagOutOfRange and the left-range event was signaled
    once. *)
Theorem UpdateStoredAmiiboData_success (fs : FileSystem) (nfc : Module) :
  nfc_tag_state nfc = TagState.TagDataLoaded →
  amiibo_decrypted nfc = true →
  amiibo_filename nfc ≠ "" →
  length (amiibo_data nfc) = 0x21C%nat →
  amiibo_filename nfc ∉ unwritable fs →
  amiibo_filename nfc ∉ write_fails fs →
  ∃ fs' nfc',
    UpdateStoredAmiiboData fs nfc
    = (fs', nfc', Some (status_only RESULT_SUCCESS))
    ∧ get_u16_be (amiibo_data nfc') 0x32 = pack_date 11 21 2014
    ∧ get_u16_be (amiibo_data nfc') 0xB4
      = (get_u16_be (amiibo_data nfc) 0xB4 + 1) mod 0x10000
    ∧ (0 <= get_u16_be (amiibo_data nfc) 0xB4 < 0xFFFF →
       get_u16_be (amiibo_data nfc') 0xB4
       = get_u16_be (amiibo_data nfc) 0xB4 + 1)
    ∧ (∀ i : nat, i ∉ [0x32; 0x33; 0xB4; 0xB5]%nat →
         amiibo_data nfc' !! i = amiibo_data nfc !! i)
    ∧ length (amiibo_data nfc') = 0x21C%nat
    ∧ files fs' !! amiibo_filename nfc = Some (amiibo_data nfc')
    ∧ amiibo_in_range nfc' = false
    ∧ nfc_tag_state nfc' = TagState.TagOutOfRange
    ∧ signaled_once (tag_out_of_range_event nfc)
                    (tag_out_of_range_event nfc')
    ∧ tag_in_range_event nfc' = tag_in_range_event nfc.
Proof.
  intros Hs Hd Hf Hl Hu Hw.
  destruct (UpdateStoredAmiiboData_module fs nfc Hs Hd Hf) as [Hm Hr].
  destruct (UpdateStoredAmiiboData fs nfc) as [[fs' nfc'] r] eqn:E.
  simpl in Hm, Hr. subst nfc' r. exists fs'. eexists. split; [reflexivity |].
  set (nfc1 := set_amiibo_data (update_metadata (amiibo_data nfc)) nfc).
  destruct (RemoveAmiibo_from_TagDataLoaded nfc1 Hs)
    as (Hin & Hst & Hout & Hine & Hdata & _).
  rewrite Hdata. simpl.
  split; [by apply update_metadata_last_write_date |].
  split; [by apply update_metadata_write_count |].
  split.
  { intros Hwc. rewrite update_metadata_write_count by done.
    apply Z.mod_small. lia. }
  split; [intros i Hi; by apply update_metadata_lookup_other |].
  split; [by rewrite update_metadata_length |].
  split; [| done].
  unfold UpdateStoredAmiiboData in E.
  rewrite decide_False in E by (by rewrite Hs; intros []).
  rewrite Hd in E. simpl in E. rewrite decide_False in E by done.
  unfold open_wb, WriteBytes in E.
  rewrite decide_False in E by done. simpl in E.
  rewrite decide_False in E by done. simpl in E.
  injection E as <-. simpl. rewrite lookup_insert_eq. f_equal.
  unfold get_bytes. simpl. apply take_ge.
  rewrite update_metadata_length, Hl. done.
Qed.

Lemma UpdateStoredAmiiboData_success_witness :
  ∃ fs' nfc',
    UpdateStoredAmiiboData Examples.disk Examples.tag_data_loaded
    = (fs', nfc', Some (status_only RESULT_SUCCESS))
    ∧ get_u16_be (amiibo_data nfc') 0x32 = pack_date 11 21 2014
    ∧ get_u16_be (amiibo_data nfc') 0xB4 = 1
    ∧ files fs' !! "amiibo.bin" = Some (amiibo_data nfc')
    ∧ nfc_tag_state nfc' = TagState.TagOutOfRange.
Proof.
  destruct (UpdateStoredAmiiboData_success Examples.disk
              Examples.tag_data_loaded)
    as (fs' & nfc' & H1 & H2 & H3 & _ & _ & _ & H4 & _ & H5 & _);
    [reflexivity | reflexivity | discriminate | reflexivity
    | apply not_elem_of_empty | apply not_elem_of_empty |].
  exists fs', nfc'.
  split; [exact H1 | split; [exact H2 | split; [exact H3 |]]].
  split; [exact H4 | exact H5].
Defined.

(** C4. On a path that cannot be opened for writing, UpdateStoredAmiiboData
    still replies success, has already incremented write_count and set
    last_write_date in the in-memory record, and evicts the tag: the
    presence flag is cleared and the state becomes TagOutOfRange. *)
Theorem UpdateStoredAmiiboData_unwritable_path :
  let nfc := Examples.tag_data_loaded in
  let out := UpdateStoredAmiiboData Examples.read_only_disk nfc in
  nfc_tag_state nfc = TagState.TagDataLoaded
  ∧ amiibo_decrypted nfc = true
  ∧ amiibo_filename nfc = "amiibo.bin"
  ∧ open_wb Examples.read_only_disk "amiibo.bin" = None
  ∧ out.2 = Some (status_only RESULT_SUCCESS)
  ∧ out.1.1 = Examples.read_only_disk
  ∧ get_u16_be (amiibo_data nfc) 0xB4 = 0
  ∧ get_u16_be (amiibo_data out.1.2) 0xB4 = 1
  ∧ get_u16_be (amiibo_data nfc) 0x32 = 0
  ∧ get_u16_be (amiibo_data out.1.2) 0x32 = 0xAD8E
  ∧ nfc_tag_state out.1.2 = TagState.TagOutOfRange
  ∧ amiibo_in_range nfc = true
  ∧ amiibo_in_range out.1.2 = false.
Proof. vm_compute. repeat split. Qed.

End Handlers.

(** ** Loading and reading the record *)

Section Records.
Import Kernel FileUtil NFC Spec.

Lemma SyncTagState_same_tag (nfc : Module) : same_tag nfc (SyncTagState nfc).
Proof. unfold SyncTagState. repeat case_decide; repeat split. Qed.

(** C8. A load succeeds exactly on a readable file of at least 0x21C bytes
    and then holds its first 0x21C bytes, classified as decrypted if and
    only if the byte at offset 0x1E3 is 0x02; on a missing or short file
    it returns false and the module is unchanged. *)
Theorem LoadAmiibo_classification (fs : FileSystem) (fullpath : string)
    (nfc : Module) :
  (∀ content : list Z,
     files fs !! fullpath = Some content →
     (0x21C ≤ length content)%nat →
     ∃ nfc', LoadAmiibo fs fullpath nfc = (nfc', true)
       ∧ amiibo_data nfc' = take 0x21C content
       ∧ (amiibo_decrypted nfc' = true
          ↔ amiibo_data nfc' !! 0x1E3%nat = Some 0x02)
       ∧ amiibo_filename nfc' = fullpath
       ∧ amiibo_in_range nfc' = true)
  ∧ (files fs !! fullpath = None →
     LoadAmiibo fs fullpath nfc = (nfc, false))
  ∧ (∀ content : list Z,
       files fs !! fullpath = Some content →
       (length content < 0x21C)%nat →
       LoadAmiibo fs fullpath nfc = (nfc, false)).
Proof.
  unfold LoadAmiibo, open_rb, ReadBytes.
  change AmiiboDataDec.sizeof with 0x21C%nat.
  change AmiiboDataDec.off_unknown3 with 0x1E3%nat.
  split; [| split].
  - intros content -> Hlen. rewrite decide_True by done.
    eexists. split; [reflexivity |].
    match goal with |- context [SyncTagState ?m] =>
      destruct (SyncTagState_same_tag m) as (_ & -> & -> & -> & ->) end.
    simpl. repeat split; try done.
    + intros Hdec. apply bool_decide_eq_true in Hdec.
      destruct (lookup_lt_is_Some_2 (take 540 content) 483) as [b Hb].
      { rewrite length_take. lia. }
      rewrite Hb. unfold get_u8 in Hdec. rewrite Hb in Hdec. simpl in Hdec.
      by subst b.
    + intros Hb. apply bool_decide_eq_true. unfold get_u8. by rewrite Hb.
  - by intros ->.
  - intros content -> Hlen. by rewrite decide_False by lia.
Qed.

Lemma LoadAmiibo_classification_witness :
  ∃ nfc', LoadAmiibo Examples.disk "amiibo.bin" Examples.scanning
          = (nfc', true)
    ∧ amiibo_data nfc' = take 0x21C Examples.decrypted_image
    ∧ (amiibo_decrypted nfc' = true
       ↔ amiibo_data nfc' !! 0x1E3%nat = Some 0x02)
    ∧ amiibo_filename nfc' = "amiibo.bin"
    ∧ amiibo_in_range nfc' = true.
Proof.
  apply (proj1 (LoadAmiibo_classification Examples.disk "amiibo.bin"
                  Examples.scanning) Examples.decrypted_image).
  - reflexivity.
  - vm_compute. lia.
Defined.

(** C9. GetAmiiboSettings on a decrypted record mutates nothing. If bit
    0x10 of the flags byte is clear it replies AmiiboNotSetup with an
    all-zero struct; otherwise it replies success with the record's mii,
    the nickname bytes, flags masked to the low four bits, the country byte
    and the setup date unpacked from the packed 16-bit field. *)
Theorem GetAmiiboSettings_reply (nfc : Module) :
  amiibo_decrypted nfc = true →
  let amiibo := amiibo_data nfc in
  let flags := get_u8 amiibo 0x2C in
  (Z.land flags 0x10 = 0 →
   GetAmiiboSettings nfc
   = (nfc, Some {| result := nfc_error ErrCodes.AmiiboNotSetup;
                   payload := RawAmiiboSettings AmiiboSettings.zero |}))
  ∧ (Z.land flags 0x10 ≠ 0 →
     ∃ s, GetAmiiboSettings nfc
          = (nfc, Some {| result := RESULT_SUCCESS;
                          payload := RawAmiiboSettings s |})
       ∧ AmiiboSettings.mii s = get_bytes amiibo 0x4C 0x60
       ∧ AmiiboSettings.nickname s = get_bytes amiibo 0x38 22
       ∧ take 20 (AmiiboSettings.nickname s) = get_bytes amiibo 0x38 20
       ∧ AmiiboSettings.flags s = Z.land flags 0xF
       ∧ AmiiboSettings.country s = get_u8 amiibo 0x2D
       ∧ AmiiboSettings.setup_day s
         = unpack_date_day (get_u16_be amiibo 0x30)
       ∧ AmiiboSettings.setup_month s
         = unpack_date_month (get_u16_be amiibo 0x30)
       ∧ AmiiboSettings.setup_year s
         = unpack_date_year (get_u16_be amiibo 0x30)
       ∧ AmiiboSettings.dummy s = replicate 0x2C 0).
Proof.
  intros Hdec amiibo flags. unfold GetAmiiboSettings.
  rewrite Hdec. simpl negb. cbv iota.
  change AmiiboDataDec.off_flags with 0x2C%nat.
  fold amiibo. fold flags. unfold flag_settings_initted.
  split.
  - intros ->. reflexivity.
  - intros Hset. apply Z.eqb_neq in Hset. rewrite Hset. simpl negb. cbv iota.
    rewrite !memcpy_zeroed.
    eexists. split; [reflexivity |].
    cbn [AmiiboSettings.mii AmiiboSettings.nickname AmiiboSettings.flags
         AmiiboSettings.country AmiiboSettings.setup_day
         AmiiboSettings.setup_month AmiiboSettings.setup_year
         AmiiboSettings.dummy].
    unfold get_bytes. rewrite !take_take.
    repeat split.
    unfold u8. change 0xF with (Z.ones 4). rewrite Z.land_ones by lia.
    apply Z.mod_small. Z.div_mod_to_equations. lia.
Qed.

Lemma GetAmiiboSettings_reply_witness :
  GetAmiiboSettings Examples.tag_in_range
  = (Examples.tag_in_range,
     Some {| result := nfc_error ErrCodes.AmiiboNotSetup;
             payload := RawAmiiboSettings AmiiboSettings.zero |}).
Proof.
  apply (proj1 (GetAmiiboSettings_reply Examples.tag_in_range eq_refl)).
  reflexivity.
Defined.

End Records.

(** ** Application data and absent replies *)

Section AppData.
Import Kernel FileUtil NFC Spec.

(** The size [WriteAppData] compares with the buffer length is the
    declared size clamped to the capacity of the region. *)
Lemma WriteAppData_unfold (size : Z) (dummy buffer : list Z) (nfc : Module) :
  amiibo_decrypted nfc = true →
  nfc_tag_state nfc ≠ TagState.NotInitialized →
  WriteAppData size dummy buffer nfc
  = (set_nfc_tag_state TagState.TagDataLoaded
       (if decide (Z.min size 0xD8 ≠ Z.of_nat (length buffer)) then nfc
        else set_amiibo_data
               (memcpy (amiibo_data nfc) 0xDC buffer
                       (Z.to_nat (Z.min size 0xD8))) nfc),
     Some (status_only RESULT_SUCCESS)).
Proof.
  intros Hdec Hs. unfold WriteAppData. rewrite Hdec. simpl negb. cbv iota.
  rewrite decide_False by done.
  change (Z.of_nat AmiiboDataDec.size_app_data) with 0xD8.
  change AmiiboDataDec.off_app_data with 0xDC%nat.
  assert (Hclamp : (if decide (size ≠ 0xD8)
                    then if decide (0xD8 < size) then 0xD8 else size
                    else size) = Z.min size 0xD8).
  { repeat case_decide; lia. }
  rewrite Hclamp. reflexivity.
Qed.

(** C3, as stated, fails: a declared size that differs from the buffer
    length is answered with success, not with an error status. *)
Lemma WriteAppData_mismatch_not_an_error :
  amiibo_decrypted Examples.tag_in_range = true
  ∧ nfc_tag_state Examples.tag_in_range ≠ TagState.NotInitialized
  ∧ Z.min 4 0xD8 ≠ Z.of_nat (length [1; 2])
  ∧ ¬ (∃ r, (WriteAppData 4 [] [1; 2] Examples.tag_in_range).2 = Some r
            ∧ is_error (result r)).
Proof.
  split; [reflexivity |]. split; [discriminate |]. split; [discriminate |].
  intros (r & Hr & Herr). vm_compute in Hr. injection Hr as <-.
  by apply Herr.
Qed.

(** C3 (amended). WriteAppData on a decrypted record in a state other than
    NotInitialized always replies success and sets the state to
    TagDataLoaded, touching nothing else but the record. The declared size
    is first clamped to 0xD8. If the clamped size differs from the buffer
    length the record is unchanged; if it equals it, exactly that many
    bytes are copied to offset 0xDC and every other byte is unchanged. *)
Theorem WriteAppData_validation (size : Z) (dummy buffer : list Z)
    (nfc : Module) :
  amiibo_decrypted nfc = true →
  nfc_tag_state nfc ≠ TagState.NotInitialized →
  length (amiibo_data nfc) = 0x21C%nat →
  let declared := Z.min size 0xD8 in
  ∃ nfc',
    WriteAppData size dummy buffer nfc
    = (nfc', Some (status_only RESULT_SUCCESS))
    ∧ nfc_tag_state nfc' = TagState.TagDataLoaded
    ∧ same_but_state_and_record nfc nfc'
    ∧ (declared ≠ Z.of_nat (length buffer) →
       amiibo_data nfc' = amiibo_data nfc)
    ∧ (declared = Z.of_nat (length buffer) →
       length (amiibo_data nfc') = 0x21C%nat
       ∧ get_bytes (amiibo_data nfc') 0xDC (length buffer) = buffer
       ∧ ∀ i : nat, (i < 0xDC ∨ 0xDC + length buffer ≤ i)%nat →
           amiibo_data nfc' !! i = amiibo_data nfc !! i).
Proof.
  intros Hdec Hs Hlen declared.
  rewrite (WriteAppData_unfold size dummy buffer nfc Hdec Hs).
  fold declared. eexists. split; [reflexivity |].
  case_decide as Hcmp; simpl.
  - repeat split; try done.
  - assert (Hn : Z.to_nat declared = length buffer) by lia.
    assert (Hcap : (length buffer ≤ 0xD8)%nat) by lia.
    rewrite Hn. repeat split; try done.
    + rewrite memcpy_length; lia.
    + rewrite memcpy_get_bytes by lia. by rewrite take_ge.
    + intros i Hi. apply memcpy_lookup_outside; lia.
Qed.

Lemma WriteAppData_validation_witness :
  ∃ nfc',
    WriteAppData 2 [] [7; 9] Examples.tag_in_range
    = (nfc', Some (status_only RESULT_SUCCESS))
    ∧ nfc_tag_state nfc' = TagState.TagDataLoaded
    ∧ get_bytes (amiibo_data nfc') 0xDC 2 = [7; 9].
Proof.
  destruct (WriteAppData_validation 2 [] [7; 9] Examples.tag_in_range)
    as (nfc' & H1 & H2 & _ & _ & H3);
    [reflexivity | discriminate | reflexivity |].
  exists nfc'. split; [exact H1 | split; [exact H2 |]].
  destruct H3 as (_ & H3 & _); [reflexivity | exact H3].
Defined.

(** The five handlers that require a decrypted record return without
    building a reply when the record is not decrypted. *)
Lemma raw_variant_no_reply (c : Command) (fs : FileSystem) (nfc : Module) :
  amiibo_decrypted nfc = false →
  requires_decrypted c = true →
  handle c fs nfc = Some (fs, nfc, None).
Proof.
  intros Hdec Hc.
  destruct c; try discriminate Hc; simpl;
    unfold GetAmiiboSettings, ReadAppData, OpenAppData, InitializeWriteAppData,
      WriteAppData; rewrite Hdec; reflexivity.
Qed.

(** Conversely, a command that ends without a reply is one of those five,
    run on a record that is not decrypted. *)
Lemma absent_reply_only_on_raw_variant (c : Command) (fs : FileSystem)
    (nfc : Module) :
  match handle c fs nfc with
  | Some (_, _, None) =>
      amiibo_decrypted nfc = false ∧ requires_decrypted c = true
  | _ => True
  end.
Proof.
  destruct c; simpl; unfold lift;
    cbv [Initialize Shutdown StartCommunication StopCommunication
         StartTagScanning StopTagScanning LoadAmiiboData ResetTagScanState
         GetTagInRangeEvent GetTagOutOfRangeEvent GetTagState
         CommunicationGetStatus GetTagInfo OpenAppData ReadAppData
         WriteAppData GetAmiiboSettings GetAmiiboConfig Unknown0x1A
         GetIdentificationBlock UpdateStoredAmiiboData
         InitializeWriteAppData];
    try done.
  all: destruct (amiibo_decrypted nfc); cbn [negb];
    repeat case_decide; try done.
  all: repeat case_match; done.
Qed.

(** C5. With a raw (not decrypted) record loaded, GetAmiiboSettings,
    OpenAppData, InitializeWriteAppData, ReadAppData and WriteAppData all
    return without any reply: no status code is pushed. *)
Theorem raw_variant_handlers_push_no_status :
  let nfc := Examples.raw_tag_in_range in
  amiibo_decrypted nfc = false
  ∧ nfc_tag_state nfc = TagState.TagInRange
  ∧ GetAmiiboSettings nfc = (nfc, None)
  ∧ OpenAppData 0 nfc = (nfc, None)
  ∧ InitializeWriteAppData 0 0 [] nfc = Some (nfc, None)
  ∧ ReadAppData nfc = (nfc, None)
  ∧ WriteAppData 0 [] [] nfc = (nfc, None).
Proof. vm_compute. repeat split. Qed.

End AppData.

(** ** The Unknown6 state *)

Section Entry.
Import Kernel FileUtil NFC Spec.

Lemma LoadAmiibo_not_Unknown6 (fs : FileSystem) (fullpath : string)
    (nfc : Module) :
  nfc_tag_state nfc ≠ TagState.Unknown6 →
  nfc_tag_state (LoadAmiibo fs fullpath nfc).1 ≠ TagState.Unknown6.
Proof.
  intros Hs. unfold LoadAmiibo. repeat case_match; simpl; try done.
  by apply SyncTagState_not_Unknown6.
Qed.

(** C10. Unknown0x1A succeeds exactly from TagInRange, where it sets the
    state to Unknown6 and changes nothing else; from any other state it
    replies CommandInvalidForState and changes nothing. No other command,
    nor loading or removing a tag, moves a session that is not in Unknown6
    into Unknown6. *)
Theorem Unknown0x1A_only_entry_to_Unknown6 (nfc : Module) :
  (nfc_tag_state nfc = TagState.TagInRange →
   ∃ nfc', Unknown0x1A nfc = (nfc', Some (status_only RESULT_SUCCESS))
     ∧ nfc_tag_state nfc' = TagState.Unknown6
     ∧ same_but_state nfc nfc')
  ∧ (nfc_tag_state nfc ≠ TagState.TagInRange →
     Unknown0x1A nfc
     = (nfc, Some {| result := nfc_error ErrCodes.CommandInvalidForState;
                     payload := NoPayload |}))
  ∧ (nfc_tag_state nfc ≠ TagState.Unknown6 →
     (∀ c fs fs' nfc' r,
        handle c fs nfc = Some (fs', nfc', r) →
        nfc_tag_state nfc' = TagState.Unknown6 →
        c = CmdUnknown0x1A)
     ∧ (∀ fs fullpath,
          nfc_tag_state (LoadAmiibo fs fullpath nfc).1 ≠ TagState.Unknown6)
     ∧ nfc_tag_state (RemoveAmiibo nfc) ≠ TagState.Unknown6).
Proof.
  split; [| split].
  - intros Hs. unfold Unknown0x1A.
    rewrite decide_False by (by rewrite Hs; intros []).
    eexists. split; [reflexivity |]. repeat split.
  - intros Hs. unfold Unknown0x1A. by rewrite decide_True.
  - intros Hs. split; [| split].
    + intros c fs fs' nfc' r Hh Hs'.
      destruct c; try reflexivity; exfalso;
        (eapply handle_not_Unknown6; [| exact Hs | exact Hh | exact Hs']);
        discriminate.
    + intros fs fullpath. by apply LoadAmiibo_not_Unknown6.
    + unfold RemoveAmiibo. by apply SyncTagState_not_Unknown6.
Qed.

Lemma Unknown0x1A_only_entry_to_Unknown6_witness :
  ∃ nfc', Unknown0x1A Examples.tag_in_range
          = (nfc', Some (status_only RESULT_SUCCESS))
    ∧ nfc_tag_state nfc' = TagState.Unknown6
    ∧ same_but_state Examples.tag_in_range nfc'.
Proof.
  apply (proj1 (Unknown0x1A_only_entry_to_Unknown6 Examples.tag_in_range)).
  reflexivity.
Defined.

End Entry.

(** ** A session from start to first query *)

Section Scenario.
Import Kernel FileUtil NFC Spec.

(** Initialize from NotInitialized, StartTagScanning, a decrypted image is
    loaded, GetAmiiboSettings is asked on a record whose settings flag is
    clear. *)
Lemma session_scenario :
  Initialize 1 Examples.fresh
  = (set_nfc_tag_state TagState.NotScanning Examples.fresh,
     Some (status_only RESULT_SUCCESS))
  ∧ nfc_tag_state Examples.scanning = TagState.Scanning
  ∧ (LoadAmiibo Examples.disk "amiibo.bin" Examples.scanning).2 = true
  ∧ amiibo_decrypted Examples.tag_in_range = true
  ∧ nfc_tag_state Examples.tag_in_range = TagState.TagInRange
  ∧ signal_count (tag_in_range_event Examples.tag_in_range) = 1%nat
  ∧ signal_count (tag_out_of_range_event Examples.tag_in_range) = 0%nat
  ∧ (GetAmiiboSettings Examples.tag_in_range).2
    = Some {| result := nfc_error ErrCodes.AmiiboNotSetup;
              payload := RawAmiiboSettings AmiiboSettings.zero |}.
Proof. vm_compute. repeat split. Qed.

End Scenario.

(** * Further properties of the code *)

(** ** The date codec, beyond the calendar range *)

Section CodecMore.
Import Props.

Lemma unpack_date_day_div (date : Z) :
  unpack_date_day date = (date / 2048) mod 32.
Proof.
  unfold unpack_date_day, u8. rewrite Z.shiftr_land.
  change (Z.shiftr 0xF800 11) with (Z.ones 5).
  rewrite Z.land_ones, Z.shiftr_div_pow2 by lia.
  change (2 ^ 11) with 2048. change (2 ^ 5) with 32.
  apply Z.mod_small. Z.div_mod_to_equations. lia.
Qed.

Lemma unpack_date_month_div (date : Z) :
  unpack_date_month date = (date / 128) mod 16.
Proof.
  unfold unpack_date_month, u8. rewrite Z.shiftr_land.
  change (Z.shiftr 0x780 7) with (Z.ones 4).
  rewrite Z.land_ones, Z.shiftr_div_pow2 by lia.
  change (2 ^ 7) with 128. change (2 ^ 4) with 16.
  apply Z.mod_small. Z.div_mod_to_equations. lia.
Qed.

Lemma unpack_date_year_mod (date : Z) :
  unpack_date_year date = date mod 128 + 2000.
Proof.
  unfold unpack_date_year, u16. change 0x7F with (Z.ones 7).
  rewrite Z.land_ones by lia. change (2 ^ 7) with 128.
  apply Z.mod_small. Z.div_mod_to_equations. lia.
Qed.

(** X1. Whatever value is stored in a packed date field, unpack_date_day
    returns a number in 0..31, unpack_date_month a number in 0..15 and
    unpack_date_year a number in 2000..2127. *)
Theorem unpack_date_bounds (date : Z) :
  0 <= unpack_date_day date <= 31
  ∧ 0 <= unpack_date_month date <= 15
  ∧ 2000 <= unpack_date_year date <= 2127.
Proof.
  rewrite unpack_date_day_div, unpack_date_month_div, unpack_date_year_mod.
  Z.div_mod_to_equations. lia.
Qed.

Lemma lor_disjoint (a b : Z) : Z.land a b = 0 → Z.lor a b = a + b.
Proof. intros H. rewrite <- (Z.add_lor_land a b), H. lia. Qed.

Lemma day_month_disjoint (d m : Z) :
  0 <= d < 32 → 0 <= m < 16 → Z.land (d * 2048) (m * 128) = 0.
Proof.
  intros Hd Hm. apply Z.eqb_eq.
  apply (forallb_seqZ (λ m, day_month_disjoint_at d m) 0 16); [| lia].
  apply (forallb_seqZ
           (λ d, forallb (λ m, day_month_disjoint_at d m) (seqZ 0 16)) 0 32);
    [reflexivity | lia].
Qed.

Lemma day_year_disjoint (d y : Z) :
  0 <= d < 32 → 0 <= y < 128 → Z.land (d * 2048) y = 0.
Proof.
  intros Hd Hy. apply Z.eqb_eq.
  apply (forallb_seqZ (λ y, day_year_disjoint_at d y) 0 128); [| lia].
  apply (forallb_seqZ
           (λ d, forallb (λ y, day_year_disjoint_at d y) (seqZ 0 128)) 0 32);
    [reflexivity | lia].
Qed.

Lemma month_year_disjoint (m y : Z) :
  0 <= m < 16 → 0 <= y < 128 → Z.land (m * 128) y = 0.
Proof.
  intros Hm Hy. apply Z.eqb_eq.
  apply (forallb_seqZ (λ y, month_year_disjoint_at m y) 0 128); [| lia].
  apply (forallb_seqZ
           (λ m, forallb (λ y, month_year_disjoint_at m y) (seqZ 0 128)) 0 16);
    [reflexivity | lia].
Qed.

(** [pack_date] as arithmetic: only the low 5 bits of the day, the low 4
    bits of the month and the low 7 bits of [year - 2000] count. *)
Lemma pack_date_arith (m d y : Z) :
  pack_date m d y = (d mod 32) * 2048 + (m mod 16) * 128 + (y - 2000) mod 128.
Proof.
  unfold pack_date, u16.
  change 0x1F with (Z.ones 5). change 0x0F with (Z.ones 4).
  change 0x7F with (Z.ones 7).
  rewrite !Z.land_ones, !Z.shiftl_mul_pow2 by lia.
  change (2 ^ 5) with 32. change (2 ^ 4) with 16. change (2 ^ 7) with 128.
  change (2 ^ 11) with 2048.
  assert (Hd : 0 <= d mod 32 < 32) by (apply Z.mod_pos_bound; lia).
  assert (Hm : 0 <= m mod 16 < 16) by (apply Z.mod_pos_bound; lia).
  assert (Hy : 0 <= (y - 2000) mod 128 < 128) by (apply Z.mod_pos_bound; lia).
  rewrite (lor_disjoint (d mod 32 * 2048)) by (by apply day_month_disjoint).
  rewrite lor_disjoint.
  - apply Z.mod_small. lia.
  - rewrite <- lor_disjoint by (by apply day_month_disjoint).
    rewrite Z.land_lor_distr_l, day_year_disjoint, month_year_disjoint by done.
    reflexivity.
Qed.

(** X2. For every 16-bit value, unpacking it into day, month and year and
    packing the three numbers again with pack_date gives the value back. *)
Theorem pack_unpack_date (date : Z) :
  0 <= date < 0x10000 →
  pack_date (unpack_date_month date) (unpack_date_day date)
            (unpack_date_year date) = date.
Proof.
  intros Hd. rewrite pack_date_arith.
  rewrite unpack_date_day_div, unpack_date_month_div, unpack_date_year_mod.
  Z.div_mod_to_equations. lia.
Qed.

Lemma pack_unpack_date_witness :
  pack_date (unpack_date_month 0xFFFF) (unpack_date_day 0xFFFF)
            (unpack_date_year 0xFFFF) = 0xFFFF.
Proof. apply pack_unpack_date. lia. Defined.

(** X3. pack_date keeps only the low 5 bits of the day, the low 4 bits of
    the month and the low 7 bits of year - 2000: a day 32 higher, a month 16
    higher or a year 128 higher (for example 2128 instead of 2000) packs to
    the same value. *)
Theorem pack_date_wraps (m d y : Z) :
  pack_date m (d + 32) y = pack_date m d y
  ∧ pack_date (m + 16) d y = pack_date m d y
  ∧ pack_date m d (y + 128) = pack_date m d y.
Proof.
  rewrite !pack_date_arith. repeat split; Z.div_mod_to_equations; lia.
Qed.

(** X4. For any arguments, unpacking pack_date(m, d, y) yields d mod 32, m
    mod 16 and ((y - 2000) mod 128) + 2000, so a date outside the
    representable range comes back reduced rather than rejected. *)
Theorem unpack_pack_date_reduces (m d y : Z) :
  unpack_date_day (pack_date m d y) = d mod 32
  ∧ unpack_date_month (pack_date m d y) = m mod 16
  ∧ unpack_date_year (pack_date m d y) = (y - 2000) mod 128 + 2000.
Proof.
  rewrite unpack_date_day_div, unpack_date_month_div, unpack_date_year_mod.
  rewrite pack_date_arith.
  repeat split; Z.div_mod_to_equations; lia.
Qed.

End CodecMore.

(** ** Scanning, resetting and restarting *)

Section StateMachineMore.
Import Kernel FileUtil NFC Spec.

Ltac by_state nfc :=
  destruct nfc as [ein eout s st d dec fn r]; simpl in *;
  destruct s, r; simpl in *.

(** X5. SyncTagState is idempotent: running it a second time changes
    nothing, so no event is signaled twice for one change of presence. *)
Theorem SyncTagState_idempotent (nfc : Module) :
  SyncTagState (SyncTagState nfc) = SyncTagState nfc.
Proof. by_state nfc; reflexivity. Qed.

(** X6. After SyncTagState the state agrees with the presence flag:
    TagInRange, TagDataLoaded or Unknown6 only with the tag present,
    Scanning or TagOutOfRange only with the tag absent. *)
Theorem SyncTagState_agrees_with_presence (nfc : Module) :
  let nfc' := SyncTagState nfc in
  (nfc_tag_state nfc' = TagState.TagInRange
   ∨ nfc_tag_state nfc' = TagState.TagDataLoaded
   ∨ nfc_tag_state nfc' = TagState.Unknown6 →
   amiibo_in_range nfc' = true)
  ∧ (nfc_tag_state nfc' = TagState.Scanning
     ∨ nfc_tag_state nfc' = TagState.TagOutOfRange →
     amiibo_in_range nfc' = false).
Proof. by_state nfc; vm_compute; intuition congruence. Qed.

Lemma SyncTagState_agrees_with_presence_witness :
  amiibo_in_range (SyncTagState Examples.tag_in_range) = true.
Proof.
  apply (proj1 (SyncTagState_agrees_with_presence Examples.tag_in_range)).
  left. reflexivity.
Defined.

(** X7. StartTagScanning from NotScanning or TagOutOfRange replies success;
    with a tag already present the state becomes TagInRange and the entered-
    range event is signaled once, otherwise the state becomes Scanning and
    nothing is signaled. The left-range event and the tag data are
    untouched. *)
Theorem StartTagScanning_outcome (in_val : Z) (nfc : Module) :
  nfc_tag_state nfc = TagState.NotScanning
  ∨ nfc_tag_state nfc = TagState.TagOutOfRange →
  ∃ nfc',
    StartTagScanning in_val nfc = (nfc', Some (status_only RESULT_SUCCESS))
    ∧ same_tag nfc nfc'
    ∧ tag_out_of_range_event nfc' = tag_out_of_range_event nfc
    ∧ (amiibo_in_range nfc = true →
       nfc_tag_state nfc' = TagState.TagInRange
       ∧ signaled_once (tag_in_range_event nfc) (tag_in_range_event nfc'))
    ∧ (amiibo_in_range nfc = false →
       nfc_tag_state nfc' = TagState.Scanning
       ∧ tag_in_range_event nfc' = tag_in_range_event nfc).
Proof.
  intros Hs. eexists.
  by_state nfc; destruct Hs as [Hs | Hs]; try discriminate Hs;
    (split; [reflexivity |]); vm_compute; intuition congruence.
Qed.

Lemma StartTagScanning_outcome_witness :
  ∃ nfc',
    StartTagScanning 0 (Initialize 1 Examples.fresh).1
    = (nfc', Some (status_only RESULT_SUCCESS))
    ∧ nfc_tag_state nfc' = TagState.Scanning.
Proof.
  destruct (StartTagScanning_outcome 0 (Initialize 1 Examples.fresh).1)
    as (nfc' & H1 & _ & _ & _ & H2); [left; reflexivity |].
  exists nfc'. split; [exact H1 |]. apply H2. reflexivity.
Defined.

(** X8. ResetTagScanState from TagDataLoaded or Unknown6 replies success and
    never signals the entered-range event; with the tag present the state
    becomes TagInRange, with the tag absent it becomes TagOutOfRange and the
    left-range event is signaled once. *)
Theorem ResetTagScanState_outcome (nfc : Module) :
  nfc_tag_state nfc = TagState.TagDataLoaded
  ∨ nfc_tag_state nfc = TagState.Unknown6 →
  ∃ nfc',
    ResetTagScanState nfc = (nfc', Some (status_only RESULT_SUCCESS))
    ∧ same_tag nfc nfc'
    ∧ tag_in_range_event nfc' = tag_in_range_event nfc
    ∧ (amiibo_in_range nfc = true →
       nfc_tag_state nfc' = TagState.TagInRange
       ∧ tag_out_of_range_event nfc' = tag_out_of_range_event nfc)
    ∧ (amiibo_in_range nfc = false →
       nfc_tag_state nfc' = TagState.TagOutOfRange
       ∧ signaled_once (tag_out_of_range_event nfc)
                       (tag_out_of_range_event nfc')).
Proof.
  intros Hs. eexists.
  by_state nfc; destruct Hs as [Hs | Hs]; try discriminate Hs;
    (split; [reflexivity |]); vm_compute; intuition congruence.
Qed.

Lemma ResetTagScanState_outcome_witness :
  ∃ nfc',
    ResetTagScanState Examples.tag_data_loaded
    = (nfc', Some (status_only RESULT_SUCCESS))
    ∧ nfc_tag_state nfc' = TagState.TagInRange.
Proof.
  destruct (ResetTagScanState_outcome Examples.tag_data_loaded)
    as (nfc' & H1 & _ & _ & H2 & _); [left; reflexivity |].
  exists nfc'. split; [exact H1 |]. apply H2. reflexivity.
Defined.

(** X9. From any state, Shutdown followed by Initialize both reply success
    and leave the session in NotScanning; the tag record, its
    classification, path, presence flag and both events survive the restart
    unchanged. *)
Theorem Shutdown_then_Initialize (p1 p2 : Z) (nfc : Module) :
  ∃ nfc1 nfc2,
    Shutdown p1 nfc = (nfc1, Some (status_only RESULT_SUCCESS))
    ∧ Initialize p2 nfc1 = (nfc2, Some (status_only RESULT_SUCCESS))
    ∧ nfc_tag_state nfc1 = TagState.NotInitialized
    ∧ nfc_tag_state nfc2 = TagState.NotScanning
    ∧ same_but_state nfc nfc2.
Proof.
  do 2 eexists. split; [reflexivity |].
  by_state nfc; (split; [reflexivity |]); repeat split.
Qed.

(** X10. From any state other than NotInitialized and NotScanning,
    StopTagScanning followed by StartTagScanning both succeed; if the tag is
    still present the session is back in TagInRange and the entered-range
    event is signaled once more, otherwise it is in Scanning with no signal. *)
Theorem rescan (in_val : Z) (nfc : Module) :
  nfc_tag_state nfc ≠ TagState.NotInitialized →
  nfc_tag_state nfc ≠ TagState.NotScanning →
  ∃ nfc1 nfc2,
    StopTagScanning nfc = (nfc1, Some (status_only RESULT_SUCCESS))
    ∧ StartTagScanning in_val nfc1
      = (nfc2, Some (status_only RESULT_SUCCESS))
    ∧ same_but_state nfc nfc1
    ∧ nfc_tag_state nfc1 = TagState.NotScanning
    ∧ same_tag nfc nfc2
    ∧ tag_out_of_range_event nfc2 = tag_out_of_range_event nfc
    ∧ (amiibo_in_range nfc = true →
       nfc_tag_state nfc2 = TagState.TagInRange
       ∧ signaled_once (tag_in_range_event nfc) (tag_in_range_event nfc2))
    ∧ (amiibo_in_range nfc = false →
       nfc_tag_state nfc2 = TagState.Scanning
       ∧ tag_in_range_event nfc2 = tag_in_range_event nfc).
Proof.
  intros H1 H2. do 2 eexists.
  by_state nfc; try done;
    (split; [reflexivity |]); (split; [reflexivity |]);
    vm_compute; intuition congruence.
Qed.

Lemma rescan_witness :
  ∃ nfc1 nfc2,
    StopTagScanning Examples.tag_data_loaded
    = (nfc1, Some (status_only RESULT_SUCCESS))
    ∧ StartTagScanning 0 nfc1 = (nfc2, Some (status_only RESULT_SUCCESS))
    ∧ nfc_tag_state nfc2 = TagState.TagInRange
    ∧ signal_count (tag_in_range_event nfc2) = 2%nat.
Proof.
  destruct (rescan 0 Examples.tag_data_loaded)
    as (nfc1 & nfc2 & H1 & H2 & _ & _ & _ & _ & H3 & _);
    [discriminate | discriminate |].
  exists nfc1, nfc2. split; [exact H1 | split; [exact H2 |]].
  destruct H3 as (H3 & _ & H4); [reflexivity |].
  split; [exact H3 | exact H4].
Defined.

(** X11. RemoveAmiibo is idempotent and only clears the presence flag and
    reconciles the state: record bytes, classification, path and the
    entered-range event are left as they were. *)
Theorem RemoveAmiibo_idempotent (nfc : Module) :
  RemoveAmiibo (RemoveAmiibo nfc) = RemoveAmiibo nfc
  ∧ amiibo_data (RemoveAmiibo nfc) = amiibo_data nfc
  ∧ amiibo_decrypted (RemoveAmiibo nfc) = amiibo_decrypted nfc
  ∧ amiibo_filename (RemoveAmiibo nfc) = amiibo_filename nfc
  ∧ amiibo_in_range (RemoveAmiibo nfc) = false
  ∧ tag_in_range_event (RemoveAmiibo nfc) = tag_in_range_event nfc.
Proof. by_state nfc; repeat split. Qed.

End StateMachineMore.

(** ** More on the byte buffer and application data *)

Section BytesMore.
Implicit Types (d : list Z) (off i : nat) (v : Z).

Lemma set_u32_be_length d off v : length (set_u32_be d off v) = length d.
Proof. unfold set_u32_be. by rewrite !length_insert. Qed.

Lemma set_u32_be_lookup_other d off v i :
  (i < off ∨ off + 4 ≤ i)%nat → set_u32_be d off v !! i = d !! i.
Proof.
  intros Hi. unfold set_u32_be. rewrite !list_lookup_insert_ne by lia. done.
Qed.

Lemma get_u32_be_set_u32_be d off v :
  (off + 4 ≤ length d)%nat → 0 <= v < 0x100000000 →
  get_u32_be (set_u32_be d off v) off = v.
Proof.
  intros Hl Hv. unfold get_u32_be, set_u32_be.
  rewrite (get_u8_lookup _ off ((v / 0x1000000) mod 0x100)).
  2:{ rewrite !list_lookup_insert_ne by lia.
      apply list_lookup_insert_eq. lia. }
  rewrite (get_u8_lookup _ (S off) ((v / 0x10000) mod 0x100)).
  2:{ rewrite !list_lookup_insert_ne by lia.
      apply list_lookup_insert_eq. rewrite !length_insert. lia. }
  rewrite (get_u8_lookup _ (S (S off)) ((v / 0x100) mod 0x100)).
  2:{ rewrite !list_lookup_insert_ne by lia.
      apply list_lookup_insert_eq. rewrite !length_insert. lia. }
  rewrite (get_u8_lookup _ (S (S (S off))) (v mod 0x100)).
  2:{ apply list_lookup_insert_eq. rewrite !length_insert. lia. }
  Z.div_mod_to_equations. lia.
Qed.

Lemma get_u8_ext d d' off : d' !! off = d !! off → get_u8 d' off = get_u8 d off.
Proof. unfold get_u8. by intros ->. Qed.

Lemma get_bytes_length d off n :
  (off + n ≤ length d)%nat → length (get_bytes d off n) = n.
Proof. intros H. unfold get_bytes. rewrite length_take, length_drop. lia. Qed.

End BytesMore.

Section AppDataMore.
Import Kernel FileUtil NFC Spec.

Lemma InitializeWriteAppData_unfold (app_id size : Z) (buffer : list Z)
    (nfc : Module) :
  amiibo_decrypted nfc = true →
  size = Z.of_nat (length buffer) →
  (length buffer ≤ 0x140)%nat →
  InitializeWriteAppData app_id size buffer nfc
  = Some (set_amiibo_data
            (set_u32_be (memcpy (amiibo_data nfc) 0xDC buffer (length buffer))
                        0xB6 app_id) nfc,
          Some (status_only RESULT_SUCCESS)).
Proof.
  intros Hdec -> Hfit. unfold InitializeWriteAppData. rewrite Hdec.
  simpl negb. cbv iota. rewrite decide_False by (intros H; by apply H).
  rewrite Nat2Z.id.
  change AmiiboDataDec.off_app_data with 0xDC%nat.
  change AmiiboDataDec.sizeof with 0x21C%nat.
  change AmiiboDataDec.off_app_id with 0xB6%nat.
  rewrite decide_True by lia. reflexivity.
Qed.



(** X13. After a successful InitializeWriteAppData(app_id, ...), OpenAppData
    with another id replies AppIdMismatch, and OpenAppData(app_id) replies
    success only if bit 0x20 of the flags byte was already set:
    InitializeWriteAppData leaves the flags byte unchanged, so otherwise the
    reply is AppDataUninitialized. *)
Theorem InitializeWriteAppData_then_OpenAppData (app_id other size : Z)
    (buffer : list Z) (nfc : Module) :
  amiibo_decrypted nfc = true →
  length (amiibo_data nfc) = 0x21C%nat →
  size = Z.of_nat (length buffer) →
  size <= 0x140 →
  0 <= app_id < 0x100000000 →
  ∃ nfc',
    InitializeWriteAppData app_id size buffer nfc
    = Some (nfc', Some (status_only RESULT_SUCCESS))
    ∧ get_u8 (amiibo_data nfc') 0x2C = get_u8 (amiibo_data nfc) 0x2C
    ∧ (other ≠ app_id →
       OpenAppData other nfc'
       = (nfc', Some (status_only (nfc_error ErrCodes.AppIdMismatch))))
    ∧ (Z.land (get_u8 (amiibo_data nfc) 0x2C) 0x20 = 0 →
       OpenAppData app_id nfc'
       = (nfc', Some (status_only
                        (nfc_error ErrCodes.AppDataUninitialized))))
    ∧ (Z.land (get_u8 (amiibo_data nfc) 0x2C) 0x20 ≠ 0 →
       OpenAppData app_id nfc'
       = (nfc', Some (status_only RESULT_SUCCESS))).
Proof.
  intros Hdec Hlen Hsize Hfit Hid.
  rewrite (InitializeWriteAppData_unfold app_id size buffer nfc)
    by (done || lia).
  eexists. split; [reflexivity |].
  set (d' := set_u32_be _ _ _).
  assert (Hflags : get_u8 d' 0x2C = get_u8 (amiibo_data nfc) 0x2C).
  { apply get_u8_ext. unfold d'. rewrite set_u32_be_lookup_other by lia.
    apply memcpy_lookup_outside; lia. }
  assert (Happ : get_u32_be d' 0xB6 = app_id).
  { unfold d'. apply get_u32_be_set_u32_be; [| done].
    rewrite memcpy_length; lia. }
  split; [exact Hflags |].
  unfold OpenAppData. simpl amiibo_decrypted. rewrite Hdec.
  simpl negb. cbv iota. simpl amiibo_data.
  change AmiiboDataDec.off_app_id with 0xB6%nat.
  change AmiiboDataDec.off_flags with 0x2C%nat.
  rewrite Happ, Hflags. unfold flag_appdata_initted.
  split; [| split].
  - intros Hne. by rewrite decide_True.
  - intros Hz. rewrite decide_False by (intros H; by apply H).
    by rewrite Hz.
  - intros Hnz. rewrite decide_False by (intros H; by apply H).
    apply Z.eqb_neq in Hnz. by rewrite Hnz.
Qed.

Lemma InitializeWriteAppData_then_OpenAppData_witness :
  ∃ nfc',
    InitializeWriteAppData 7 2 [5; 6] Examples.tag_in_range
    = Some (nfc', Some (status_only RESULT_SUCCESS))
    ∧ OpenAppData 7 nfc'
      = (nfc', Some (status_only (nfc_error ErrCodes.AppDataUninitialized))).
Proof.
  destruct (InitializeWriteAppData_then_OpenAppData 7 0 2 [5; 6]
              Examples.tag_in_range)
    as (nfc' & H1 & _ & _ & H2 & _);
    [reflexivity | reflexivity | reflexivity | lia | lia |].
  exists nfc'. split; [exact H1 |]. apply H2. reflexivity.
Defined.

(** X14. After WriteAppData with a (clamped) size equal to the buffer
    length, ReadAppData returns a 0xD8-byte buffer that starts with the
    written bytes and continues with the old content of the region, and
    leaves the module as WriteAppData left it. *)
Theorem WriteAppData_then_ReadAppData (size : Z) (dummy buffer : list Z)
    (nfc : Module) :
  amiibo_decrypted nfc = true →
  nfc_tag_state nfc ≠ TagState.NotInitialized →
  length (amiibo_data nfc) = 0x21C%nat →
  Z.min size 0xD8 = Z.of_nat (length buffer) →
  ∃ nfc1 out,
    WriteAppData size dummy buffer nfc
    = (nfc1, Some (status_only RESULT_SUCCESS))
    ∧ ReadAppData nfc1
      = (nfc1, Some {| result := RESULT_SUCCESS;
                       payload := StaticBuffer out |})
    ∧ length out = 0xD8%nat
    ∧ take (length buffer) out = buffer
    ∧ drop (length buffer) out
      = drop (length buffer) (get_bytes (amiibo_data nfc) 0xDC 0xD8).
Proof.
  intros Hdec Hs Hlen Hsize.
  rewrite (WriteAppData_unfold size dummy buffer nfc Hdec Hs).
  rewrite decide_False by (intros H; by apply H).
  rewrite Hsize, Nat2Z.id.
  assert (Hcap : (length buffer ≤ 0xD8)%nat) by lia.
  do 2 eexists. split; [reflexivity |].
  unfold ReadAppData. simpl amiibo_decrypted. rewrite Hdec.
  simpl negb. cbv iota. rewrite decide_False by done.
  change AmiiboDataDec.off_app_data with 0xDC%nat.
  change AmiiboDataDec.size_app_data with 0xD8%nat.
  split; [reflexivity |]. simpl amiibo_data.
  set (d' := memcpy _ _ _ _).
  assert (Hl' : length d' = 0x21C%nat) by (unfold d'; rewrite memcpy_length; lia).
  split; [apply get_bytes_length; lia |].
  split.
  - unfold get_bytes. rewrite take_take, Nat.min_l by done.
    fold (get_bytes d' 0xDC (length buffer)). unfold d'.
    rewrite memcpy_get_bytes by lia. by rewrite take_ge.
  - unfold get_bytes. apply list_eq. intros i.
    rewrite !lookup_drop.
    destruct (decide (length buffer + i < 0xD8)%nat) as [Hi | Hi].
    + rewrite !lookup_take_lt, !lookup_drop by done.
      unfold d'. apply memcpy_lookup_outside; lia.
    + by rewrite !lookup_take_ge by lia.
Qed.

Lemma WriteAppData_then_ReadAppData_witness :
  ∃ nfc1 out,
    WriteAppData 2 [] [7; 9] Examples.tag_in_range
    = (nfc1, Some (status_only RESULT_SUCCESS))
    ∧ ReadAppData nfc1
      = (nfc1, Some {| result := RESULT_SUCCESS;
                       payload := StaticBuffer out |})
    ∧ take 2 out = [7; 9].
Proof.
  destruct (WriteAppData_then_ReadAppData 2 [] [7; 9] Examples.tag_in_range)
    as (nfc1 & out & H1 & H2 & _ & H3 & _);
    [reflexivity | discriminate | reflexivity | reflexivity |].
  exists nfc1, out. split; [exact H1 | split; [exact H2 | exact H3]].
Defined.

End AppDataMore.

(** ** Tag presence *)

Section PresenceMore.
Import Kernel FileUtil NFC Spec.

Lemma LoadAmiibo_unfold (fs : FileSystem) (fullpath : string) (nfc : Module)
    (content : list Z) :
  files fs !! fullpath = Some content →
  (0x21C ≤ length content)%nat →
  LoadAmiibo fs fullpath nfc
  = (SyncTagState
       {| tag_in_range_event := tag_in_range_event nfc;
          tag_out_of_range_event := tag_out_of_range_event nfc;
          nfc_tag_state := nfc_tag_state nfc;
          nfc_status := nfc_status nfc;
          amiibo_data := take 0x21C content;
          amiibo_decrypted :=
            bool_decide (get_u8 (take 0x21C content) 0x1E3 = 0x02);
          amiibo_filename := fullpath;
          amiibo_in_range := true |}, true).
Proof.
  intros Hf Hl. unfold LoadAmiibo, open_rb, ReadBytes. rewrite Hf.
  change AmiiboDataDec.sizeof with 0x21C%nat.
  by rewrite decide_True by done.
Qed.



(** X16. A tag loaded while the session is in NotScanning signals nothing
    and leaves the state alone; the next StartTagScanning then goes straight
    to TagInRange and signals the entered-range event exactly once. *)
Theorem tag_loaded_before_scanning (fs : FileSystem) (fullpath : string)
    (in_val : Z) (nfc : Module) (content : list Z) :
  files fs !! fullpath = Some content →
  (0x21C ≤ length content)%nat →
  nfc_tag_state nfc = TagState.NotScanning →
  ∃ nfc1 nfc2,
    LoadAmiibo fs fullpath nfc = (nfc1, true)
    ∧ nfc_tag_state nfc1 = TagState.NotScanning
    ∧ tag_in_range_event nfc1 = tag_in_range_event nfc
    ∧ StartTagScanning in_val nfc1
      = (nfc2, Some (status_only RESULT_SUCCESS))
    ∧ nfc_tag_state nfc2 = TagState.TagInRange
    ∧ signaled_once (tag_in_range_event nfc) (tag_in_range_event nfc2)
    ∧ tag_out_of_range_event nfc2 = tag_out_of_range_event nfc
    ∧ amiibo_data nfc2 = take 0x21C content.
Proof.
  intros Hf Hl Hs. rewrite (LoadAmiibo_unfold fs fullpath nfc content Hf Hl).
  do 2 eexists. split; [reflexivity |].
  destruct nfc as [ein eout s st d dec fn r]; simpl in Hs; subst s.
  split; [reflexivity |]. split; [reflexivity |].
  split; [reflexivity |]. repeat split.
Qed.

Lemma tag_loaded_before_scanning_witness :
  ∃ nfc1 nfc2,
    LoadAmiibo Examples.disk "amiibo.bin" (Initialize 1 Examples.fresh).1
    = (nfc1, true)
    ∧ StartTagScanning 0 nfc1 = (nfc2, Some (status_only RESULT_SUCCESS))
    ∧ nfc_tag_state nfc2 = TagState.TagInRange.
Proof.
  destruct (tag_loaded_before_scanning Examples.disk "amiibo.bin" 0
              (Initialize 1 Examples.fresh).1 Examples.decrypted_image)
    as (nfc1 & nfc2 & H1 & _ & _ & H2 & H3 & _);
    [reflexivity | vm_compute; lia | reflexivity |].
  exists nfc1, nfc2. split; [exact H1 | split; [exact H2 | exact H3]].
Defined.

(** X17. Loading a tag from Scanning or TagOutOfRange and then removing it
    ends in TagOutOfRange with each of the two events signaled exactly once;
    the record bytes and the path of the removed tag are kept. *)
Theorem LoadAmiibo_then_RemoveAmiibo (fs : FileSystem) (fullpath : string)
    (nfc : Module) (content : list Z) :
  files fs !! fullpath = Some content →
  (0x21C ≤ length content)%nat →
  nfc_tag_state nfc = TagState.Scanning
  ∨ nfc_tag_state nfc = TagState.TagOutOfRange →
  ∃ nfc1,
    LoadAmiibo fs fullpath nfc = (nfc1, true)
    ∧ nfc_tag_state (RemoveAmiibo nfc1) = TagState.TagOutOfRange
    ∧ amiibo_in_range (RemoveAmiibo nfc1) = false
    ∧ signaled_once (tag_in_range_event nfc)
                    (tag_in_range_event (RemoveAmiibo nfc1))
    ∧ signaled_once (tag_out_of_range_event nfc)
                    (tag_out_of_range_event (RemoveAmiibo nfc1))
    ∧ amiibo_data (RemoveAmiibo nfc1) = take 0x21C content
    ∧ amiibo_filename (RemoveAmiibo nfc1) = fullpath.
Proof.
  intros Hf Hl Hs. rewrite (LoadAmiibo_unfold fs fullpath nfc content Hf Hl).
  eexists. split; [reflexivity |].
  destruct nfc as [ein eout s st d dec fn r]; simpl in Hs;
    destruct Hs as [-> | ->]; repeat split.
Qed.

Lemma LoadAmiibo_then_RemoveAmiibo_witness :
  ∃ nfc1,
    LoadAmiibo Examples.disk "amiibo.bin" Examples.scanning = (nfc1, true)
    ∧ nfc_tag_state (RemoveAmiibo nfc1) = TagState.TagOutOfRange.
Proof.
  destruct (LoadAmiibo_then_RemoveAmiibo Examples.disk "amiibo.bin"
              Examples.scanning Examples.decrypted_image)
    as (nfc1 & H1 & H2 & _); [reflexivity | vm_compute; lia
                              | left; reflexivity |].
  exists nfc1. split; [exact H1 | exact H2].
Defined.

End PresenceMore.

(** ** Replies and persistence *)

Section RepliesMore.
Import Kernel FileUtil NFC Spec.

Ltac not_listed :=
  let H := fresh in
  intros H;
  repeat (apply elem_of_cons in H as [H | H]; [lia |]);
  by apply elem_of_nil in H.

(** X18. In an accepted state GetTagInfo leaves the module unchanged and
    replies success with a 0x28-byte id made of the 7 UUID bytes (offset 0
    of a raw record, offset 0x1D4 of a decrypted one) followed by 33 zero
    bytes, id_offset_size 7, unk1 0 and unk2 2. *)
Theorem GetTagInfo_reply (nfc : Module) :
  length (amiibo_data nfc) = 0x21C%nat →
  nfc_tag_state nfc = TagState.TagInRange
  ∨ nfc_tag_state nfc = TagState.TagDataLoaded
  ∨ nfc_tag_state nfc = TagState.Unknown6 →
  ∃ t,
    GetTagInfo nfc
    = (nfc, Some {| result := RESULT_SUCCESS; payload := RawTagInfo t |})
    ∧ TagInfo.id t
      = get_bytes (amiibo_data nfc)
                  (if amiibo_decrypted nfc then 0x1D4 else 0)%nat 7
        ++ replicate 33 0
    ∧ length (TagInfo.id t) = 0x28%nat
    ∧ TagInfo.id_offset_size t = 7
    ∧ TagInfo.unk1 t = 0
    ∧ TagInfo.unk2 t = 2.
Proof.
  intros Hlen Hs. unfold GetTagInfo.
  rewrite decide_False by (destruct Hs as [-> | [-> | ->]]; by intros (? & ? & ?)).
  eexists. split; [reflexivity |].
  cbn [TagInfo.id TagInfo.id_offset_size TagInfo.unk1 TagInfo.unk2].
  change AmiiboDataDec.size_uuid with 7%nat.
  change AmiiboDataEnc.off_uuid with 0%nat.
  change AmiiboDataDec.off_uuid with 0x1D4%nat.
  change TagInfo.size_id with 0x28%nat.
  assert (Hid : ∀ off, (off + 7 ≤ 0x21C)%nat →
            memcpy (replicate 0x28 0) 0 (get_bytes (amiibo_data nfc) off 7) 7
            = get_bytes (amiibo_data nfc) off 7 ++ replicate 33 0).
  { intros off Hoff. unfold memcpy. rewrite take_0, app_nil_l.
    rewrite take_ge by (rewrite get_bytes_length; lia).
    by rewrite drop_replicate. }
  destruct (amiibo_decrypted nfc); simpl negb; cbv iota;
    (rewrite Hid by lia); repeat split;
    rewrite length_app, get_bytes_length, length_replicate; lia.
Qed.

Lemma GetTagInfo_reply_witness :
  ∃ t,
    GetTagInfo Examples.tag_in_range
    = (Examples.tag_in_range,
       Some {| result := RESULT_SUCCESS; payload := RawTagInfo t |})
    ∧ length (TagInfo.id t) = 0x28%nat.
Proof.
  destruct (GetTagInfo_reply Examples.tag_in_range)
    as (t & H1 & _ & H2 & _); [reflexivity | left; reflexivity |].
  exists t. split; [exact H1 | exact H2].
Defined.

(** X19. GetIdentificationBlock replies CommandInvalidForState outside
    TagDataLoaded and Unknown6 and changes nothing; inside, it replies
    success with the same char_id, char_variant, series, model_number and
    figure_type that GetAmiiboConfig reports, for a raw and for a decrypted
    record alike. *)
Theorem GetIdentificationBlock_agrees_with_GetAmiiboConfig (nfc : Module) :
  (nfc_tag_state nfc ≠ TagState.TagDataLoaded →
   nfc_tag_state nfc ≠ TagState.Unknown6 →
   GetIdentificationBlock nfc
   = (nfc, Some {| result := nfc_error ErrCodes.CommandInvalidForState;
                   payload := NoPayload |}))
  ∧ (nfc_tag_state nfc = TagState.TagDataLoaded
     ∨ nfc_tag_state nfc = TagState.Unknown6 →
     ∃ b c,
       GetIdentificationBlock nfc
       = (nfc, Some {| result := RESULT_SUCCESS;
                       payload := RawIdentificationBlock b |})
       ∧ GetAmiiboConfig nfc
         = (nfc, Some {| result := RESULT_SUCCESS;
                         payload := RawAmiiboConfig c |})
       ∧ IdentificationBlockReply.char_id b = AmiiboConfig.char_id c
       ∧ IdentificationBlockReply.char_variant b
         = AmiiboConfig.char_variant c
       ∧ IdentificationBlockReply.series b = AmiiboConfig.series c
       ∧ IdentificationBlockReply.model_number b
         = AmiiboConfig.model_number c
       ∧ IdentificationBlockReply.figure_type b
         = AmiiboConfig.figure_type c).
Proof.
  unfold GetIdentificationBlock, GetAmiiboConfig. split.
  - intros H1 H2. by rewrite decide_True.
  - intros Hs.
    rewrite decide_False by (destruct Hs as [-> | ->]; by intros (? & ?)).
    do 2 eexists. split; [reflexivity |]. split; [reflexivity |].
    destruct (amiibo_decrypted nfc); repeat split.
Qed.

Lemma GetIdentificationBlock_agrees_with_GetAmiiboConfig_witness :
  GetIdentificationBlock Examples.tag_in_range
  = (Examples.tag_in_range,
     Some {| result := nfc_error ErrCodes.CommandInvalidForState;
             payload := NoPayload |}).
Proof.
  apply (proj1 (GetIdentificationBlock_agrees_with_GetAmiiboConfig
                  Examples.tag_in_range)); discriminate.
Defined.

(** X20. ReadAppData on a decrypted record replies CommandInvalidForState
    from NotInitialized; from any other state it returns the 0xD8 bytes at
    offset 0xDC, sets the state to TagDataLoaded and changes nothing else,
    and a second ReadAppData returns the same buffer and the same module. *)
Theorem ReadAppData_twice (nfc : Module) :
  amiibo_decrypted nfc = true →
  length (amiibo_data nfc) = 0x21C%nat →
  (nfc_tag_state nfc = TagState.NotInitialized →
   ReadAppData nfc
   = (nfc, Some {| result := nfc_error ErrCodes.CommandInvalidForState;
                   payload := NoPayload |}))
  ∧ (nfc_tag_state nfc ≠ TagState.NotInitialized →
     ∃ nfc' out,
       ReadAppData nfc
       = (nfc', Some {| result := RESULT_SUCCESS;
                        payload := StaticBuffer out |})
       ∧ out = get_bytes (amiibo_data nfc) 0xDC 0xD8
       ∧ length out = 0xD8%nat
       ∧ nfc_tag_state nfc' = TagState.TagDataLoaded
       ∧ same_but_state nfc nfc'
       ∧ ReadAppData nfc'
         = (nfc', Some {| result := RESULT_SUCCESS;
                          payload := StaticBuffer out |})).
Proof.
  intros Hdec Hlen. unfold ReadAppData. rewrite Hdec. simpl negb. cbv iota.
  split.
  - intros Hs. by rewrite decide_True.
  - intros Hs. rewrite decide_False by done.
    do 2 eexists. split; [reflexivity |].
    change AmiiboDataDec.off_app_data with 0xDC%nat.
    change AmiiboDataDec.size_app_data with 0xD8%nat.
    split; [reflexivity |].
    split; [apply get_bytes_length; lia |].
    split; [reflexivity |]. split; [repeat split |].
    simpl. rewrite Hdec. reflexivity.
Qed.

Lemma ReadAppData_twice_witness :
  ∃ nfc' out,
    ReadAppData Examples.tag_in_range
    = (nfc', Some {| result := RESULT_SUCCESS;
                     payload := StaticBuffer out |})
    ∧ length out = 0xD8%nat.
Proof.
  destruct (proj2 (ReadAppData_twice Examples.tag_in_range eq_refl eq_refl))
    as (nfc' & out & H1 & _ & H2 & _); [discriminate |].
  exists nfc', out. split; [exact H1 | exact H2].
Defined.

(** X21. UpdateStoredAmiiboData called in a state other than TagDataLoaded,
    or on a record that is not decrypted, or with an empty file name,
    replies CommandInvalidForState and leaves the module and the file system
    unchanged. *)
Theorem UpdateStoredAmiiboData_rejected (fs : FileSystem) (nfc : Module) :
  nfc_tag_state nfc ≠ TagState.TagDataLoaded
  ∨ amiibo_decrypted nfc = false
  ∨ amiibo_filename nfc = "" →
  UpdateStoredAmiiboData fs nfc
  = (fs, nfc, Some {| result := nfc_error ErrCodes.CommandInvalidForState;
                      payload := NoPayload |}).
Proof.
  intros H. unfold UpdateStoredAmiiboData.
  repeat case_decide; try reflexivity;
    destruct (amiibo_decrypted nfc); try reflexivity.
  destruct H as [H | [H | H]]; [| discriminate | done].
  exfalso. apply H. by apply dec_stable.
Qed.

Lemma UpdateStoredAmiiboData_rejected_witness :
  UpdateStoredAmiiboData Examples.disk Examples.tag_in_range
  = (Examples.disk, Examples.tag_in_range,
     Some {| result := nfc_error ErrCodes.CommandInvalidForState;
             payload := NoPayload |}).
Proof.
  apply UpdateStoredAmiiboData_rejected. left. discriminate.
Defined.

(** X22. After a successful UpdateStoredAmiiboData on a writable path,
    LoadAmiibo of the same path succeeds and loads exactly the record that
    was written (with the new date and counter); the session is back in
    TagInRange, each event was signaled once, and the record is classified
    decrypted if and only if its byte at 0x1E3 is 0x02. *)
Theorem UpdateStoredAmiiboData_then_LoadAmiibo (fs : FileSystem)
    (nfc : Module) :
  nfc_tag_state nfc = TagState.TagDataLoaded →
  amiibo_decrypted nfc = true →
  amiibo_filename nfc ≠ "" →
  length (amiibo_data nfc) = 0x21C%nat →
  amiibo_filename nfc ∉ unwritable fs →
  amiibo_filename nfc ∉ write_fails fs →
  ∃ fs' nfc1 nfc2,
    UpdateStoredAmiiboData fs nfc
    = (fs', nfc1, Some (status_only RESULT_SUCCESS))
    ∧ LoadAmiibo fs' (amiibo_filename nfc) nfc1 = (nfc2, true)
    ∧ amiibo_data nfc2 = update_metadata (amiibo_data nfc)
    ∧ amiibo_data nfc2 = amiibo_data nfc1
    ∧ (amiibo_decrypted nfc2 = true
       ↔ amiibo_data nfc !! 0x1E3%nat = Some 0x02)
    ∧ nfc_tag_state nfc2 = TagState.TagInRange
    ∧ amiibo_in_range nfc2 = true
    ∧ signaled_once (tag_in_range_event nfc) (tag_in_range_event nfc2)
    ∧ signaled_once (tag_out_of_range_event nfc)
                    (tag_out_of_range_event nfc2).
Proof.
  intros Hs Hd Hf Hl Hu Hw.
  set (d' := update_metadata (amiibo_data nfc)).
  assert (Hl' : length d' = 0x21C%nat)
    by (unfold d'; by rewrite update_metadata_length).
  assert (E : UpdateStoredAmiiboData fs nfc
              = (with_files (<[amiibo_filename nfc := d']>
                               (<[amiibo_filename nfc := []]> (files fs))) fs,
                 RemoveAmiibo (set_amiibo_data d' nfc),
                 Some (status_only RESULT_SUCCESS))).
  { unfold UpdateStoredAmiiboData.
    rewrite decide_False by (by rewrite Hs; intros []).
    rewrite Hd. simpl negb. cbv iota. rewrite decide_False by done.
    unfold open_wb, WriteBytes.
    rewrite decide_False by done. cbn [unwritable write_fails with_files].
    rewrite decide_False by done. cbn [fst files with_files].
    change AmiiboDataDec.sizeof with 0x21C%nat.
    fold d'. unfold get_bytes. rewrite drop_0, take_ge by lia.
    reflexivity. }
  rewrite E. do 3 eexists. split; [reflexivity |].
  rewrite (LoadAmiibo_unfold _ _ _ d')
    by (cbn [files with_files]; first [apply lookup_insert_eq | lia]).
  split; [reflexivity |].
  rewrite take_ge by lia.
  destruct nfc as [ein eout s st d dec fn r]; simpl in *; subst s.
  unfold SyncTagState; simpl.
  repeat split; try done.
  - intros Hdec'. apply bool_decide_eq_true in Hdec'.
    destruct (lookup_lt_is_Some_2 d 483) as [b Hb]; [lia |].
    assert (Hb' : d' !! 483%nat = Some b).
    { unfold d'. by rewrite update_metadata_lookup_other by not_listed. }
    rewrite (get_u8_lookup _ _ _ Hb') in Hdec'. by subst b.
  - intros Hb. apply bool_decide_eq_true. apply get_u8_lookup.
    unfold d'. by rewrite update_metadata_lookup_other by not_listed.
Qed.

Lemma UpdateStoredAmiiboData_then_LoadAmiibo_witness :
  ∃ fs' nfc1 nfc2,
    UpdateStoredAmiiboData Examples.disk Examples.tag_data_loaded
    = (fs', nfc1, Some (status_only RESULT_SUCCESS))
    ∧ LoadAmiibo fs' "amiibo.bin" nfc1 = (nfc2, true)
    ∧ amiibo_data nfc2 = amiibo_data nfc1
    ∧ nfc_tag_state nfc2 = TagState.TagInRange.
Proof.
  destruct (UpdateStoredAmiiboData_then_LoadAmiibo Examples.disk
              Examples.tag_data_loaded)
    as (fs' & nfc1 & nfc2 & H1 & H2 & _ & H3 & _ & H4 & _);
    [reflexivity | reflexivity | discriminate | reflexivity
    | apply not_elem_of_empty | apply not_elem_of_empty |].
  exists fs', nfc1, nfc2.
  split; [exact H1 | split; [exact H2 | split; [exact H3 | exact H4]]].
Defined.

(** X23. After UpdateStoredAmiiboData has passed its three precondition
    checks, GetAmiiboConfig reports last write date 21/11/2014, a write
    count one higher (modulo 0x10000) and appdata_size 0xD8, whatever the
    file system did. *)
Theorem GetAmiiboConfig_after_UpdateStoredAmiiboData (fs : FileSystem)
    (nfc : Module) :
  nfc_tag_state nfc = TagState.TagDataLoaded →
  amiibo_decrypted nfc = true →
  amiibo_filename nfc ≠ "" →
  length (amiibo_data nfc) = 0x21C%nat →
  ∃ nfc' c,
    (UpdateStoredAmiiboData fs nfc).1.2 = nfc'
    ∧ GetAmiiboConfig nfc'
      = (nfc', Some {| result := RESULT_SUCCESS;
                       payload := RawAmiiboConfig c |})
    ∧ AmiiboConfig.last_write_year c = 2014
    ∧ AmiiboConfig.last_write_month c = 11
    ∧ AmiiboConfig.last_write_day c = 21
    ∧ AmiiboConfig.write_count c
      = (get_u16_be (amiibo_data nfc) 0xB4 + 1) mod 0x10000
    ∧ AmiiboConfig.appdata_size c = 0xD8.
Proof.
  intros Hs Hd Hf Hl.
  destruct (UpdateStoredAmiiboData_module fs nfc Hs Hd Hf) as [-> _].
  set (nfc1 := set_amiibo_data (update_metadata (amiibo_data nfc)) nfc).
  destruct (RemoveAmiibo_from_TagDataLoaded nfc1 Hs)
    as (_ & _ & _ & _ & Hdata & _ & Hdec).
  do 2 eexists. split; [reflexivity |].
  unfold GetAmiiboConfig. rewrite Hdec, Hdata. simpl amiibo_decrypted.
  rewrite Hd. simpl negb. cbv iota. split; [reflexivity |].
  cbn [AmiiboConfig.last_write_year AmiiboConfig.last_write_month
       AmiiboConfig.last_write_day AmiiboConfig.write_count
       AmiiboConfig.appdata_size].
  change AmiiboDataDec.off_last_write_date with 0x32%nat.
  change AmiiboDataDec.off_write_count with 0xB4%nat.
  simpl amiibo_data.
  rewrite update_metadata_last_write_date, update_metadata_write_count
    by done.
  repeat split.
Qed.

Lemma GetAmiiboConfig_after_UpdateStoredAmiiboData_witness :
  ∃ nfc' c,
    (UpdateStoredAmiiboData Examples.disk Examples.tag_data_loaded).1.2
    = nfc'
    ∧ GetAmiiboConfig nfc'
      = (nfc', Some {| result := RESULT_SUCCESS;
                       payload := RawAmiiboConfig c |})
    ∧ AmiiboConfig.last_write_year c = 2014
    ∧ AmiiboConfig.write_count c = 1.
Proof.
  destruct (GetAmiiboConfig_after_UpdateStoredAmiiboData Examples.disk
              Examples.tag_data_loaded)
    as (nfc' & c & H1 & H2 & H3 & _ & _ & H4 & _);
    [reflexivity | reflexivity | discriminate | reflexivity |].
  exists nfc', c.
  split; [exact H1 | split; [exact H2 | split; [exact H3 | exact H4]]].
Defined.

End RepliesMore.

(** ** What every entry point keeps *)

Section Invariants.
Import Kernel FileUtil NFC Spec Props.

Ltac unfold_handlers :=
  cbv [Initialize Shutdown StartCommunication StopCommunication
       StartTagScanning StopTagScanning LoadAmiiboData ResetTagScanState
       GetTagInRangeEvent GetTagOutOfRangeEvent GetTagState
       CommunicationGetStatus GetTagInfo OpenAppData ReadAppData
       WriteAppData GetAmiiboSettings GetAmiiboConfig Unknown0x1A
       GetIdentificationBlock UpdateStoredAmiiboData RemoveAmiibo
       InitializeWriteAppData] in *.

Lemma SyncTagState_events (nfc : Module) :
  at_most_one_signal nfc (SyncTagState nfc).
Proof.
  unfold at_most_one_signal, SyncTagState. repeat case_decide; simpl.
  - right. left. repeat split.
  - right. right. repeat split.
  - left. done.
Qed.



(** X25. The record buffer keeps its 0x21C bytes through every command that
    returns, through LoadAmiibo (successful or not) and through
    RemoveAmiibo. *)
Theorem record_length_invariant (nfc : Module) :
  length (amiibo_data nfc) = 0x21C%nat →
  (∀ c fs fs' nfc' r,
     handle c fs nfc = Some (fs', nfc', r) →
     length (amiibo_data nfc') = 0x21C%nat)
  ∧ (∀ fs fullpath,
       length (amiibo_data (LoadAmiibo fs fullpath nfc).1) = 0x21C%nat)
  ∧ length (amiibo_data (RemoveAmiibo nfc)) = 0x21C%nat.
Proof.
  intros Hl. split; [| split].
  - intros c fs fs' nfc' r Hh.
    destruct c; simpl in Hh; unfold lift in Hh.
    all: try (injection Hh as <- <- <-).
    all: unfold_handlers.
    all: repeat first [case_decide | case_match]; simplify_eq;
         cbn [fst snd amiibo_data set_nfc_tag_state set_amiibo_data
              set_amiibo_in_range]; try done.
    all: try match goal with |- context [SyncTagState ?m] =>
           destruct (SyncTagState_same_tag m) as (_ & -> & _) end.
    all: cbn [amiibo_data set_nfc_tag_state set_amiibo_data
              set_amiibo_in_range]; try done.
    all: change AmiiboDataDec.off_app_data with 0xDC%nat in *;
         change AmiiboDataDec.sizeof with 0x21C%nat in *;
         change (Z.of_nat AmiiboDataDec.size_app_data) with 0xD8 in *;
         change AmiiboDataDec.size_app_data with 0xD8%nat in *.
    all: first [ by rewrite update_metadata_length
               | rewrite set_u32_be_length, memcpy_length; [done | lia | lia]
               | rewrite memcpy_length; [done | lia | lia] ].
  - intros fs fullpath. unfold LoadAmiibo, open_rb, ReadBytes.
    change AmiiboDataDec.sizeof with 0x21C%nat.
    destruct (files fs !! fullpath) as [content |]; [| done].
    case_decide; [| done]. cbn [fst].
    match goal with |- context [SyncTagState ?m] =>
      destruct (SyncTagState_same_tag m) as (_ & -> & _) end.
    simpl. rewrite length_take. lia.
  - unfold RemoveAmiibo.
    match goal with |- context [SyncTagState ?m] =>
      destruct (SyncTagState_same_tag m) as (_ & -> & _) end.
    done.
Qed.

Lemma record_length_invariant_witness :
  length (amiibo_data (RemoveAmiibo Examples.tag_in_range)) = 0x21C%nat.
Proof.
  apply (record_length_invariant Examples.tag_in_range). reflexivity.
Defined.

(** X26. Every command, LoadAmiibo and RemoveAmiibo signal at most one
    event, at most once: either both events are untouched, or exactly one of
    them was signaled exactly once. *)
Theorem one_signal_per_entry_point (nfc : Module) :
  (∀ c fs fs' nfc' r,
     handle c fs nfc = Some (fs', nfc', r) → at_most_one_signal nfc nfc')
  ∧ (∀ fs fullpath, at_most_one_signal nfc (LoadAmiibo fs fullpath nfc).1)
  ∧ at_most_one_signal nfc (RemoveAmiibo nfc).
Proof.
  unfold at_most_one_signal. split; [| split].
  - intros c fs fs' nfc' r Hh.
    destruct c; simpl in Hh; unfold lift in Hh.
    all: try (injection Hh as <- <- <-).
    all: unfold_handlers.
    all: repeat first [case_decide | case_match]; simplify_eq;
         cbn [fst snd].
    all: try (left; split; reflexivity).
    all: match goal with |- context [SyncTagState ?m] =>
           exact (SyncTagState_events m) end.
  - intros fs fullpath. unfold LoadAmiibo, open_rb, ReadBytes.
    destruct (files fs !! fullpath) as [content |]; [| by left].
    case_decide; [| by left]. cbn [fst].
    match goal with |- context [SyncTagState ?m] =>
      exact (SyncTagState_events m) end.
  - unfold RemoveAmiibo.
    match goal with |- context [SyncTagState ?m] =>
      exact (SyncTagState_events m) end.
Qed.

Lemma one_signal_per_entry_point_witness :
  at_most_one_signal Examples.scanning
    (StartTagScanning 0 Examples.scanning).1.
Proof.
  apply (proj1 (one_signal_per_entry_point Examples.scanning)
           (CmdStartTagScanning 0) Examples.disk Examples.disk _
           (Some invalid_state) eq_refl).
Defined.

End Invariants.

(** ** Classification and save states *)

Section Classification.
Import Kernel FileUtil NFC Spec Props Savestate.

Ltac unfold_handlers' :=
  cbv [Initialize Shutdown StartCommunication StopCommunication
       StartTagScanning StopTagScanning LoadAmiiboData ResetTagScanState
       GetTagInRangeEvent GetTagOutOfRangeEvent GetTagState
       CommunicationGetStatus GetTagInfo OpenAppData ReadAppData
       WriteAppData GetAmiiboSettings GetAmiiboConfig Unknown0x1A
       GetIdentificationBlock UpdateStoredAmiiboData RemoveAmiibo
       InitializeWriteAppData] in *.

Lemma classification_current_ext (nfc nfc' : Module) :
  amiibo_decrypted nfc' = amiibo_decrypted nfc →
  amiibo_data nfc' !! 0x1E3%nat = amiibo_data nfc !! 0x1E3%nat →
  classification_current nfc → classification_current nfc'.
Proof.
  unfold classification_current. intros -> Hb ->.
  by rewrite (get_u8_ext _ _ _ Hb).
Qed.

Lemma SyncTagState_classification (nfc : Module) :
  classification_current nfc → classification_current (SyncTagState nfc).
Proof.
  destruct (SyncTagState_same_tag nfc) as (_ & Hd & Hdec & _).
  apply classification_current_ext; [exact Hdec | by rewrite Hd].
Qed.

(** X27. The cached flag amiibo_decrypted agrees with the byte at 0x1E3
    after every successful LoadAmiibo, and every command keeps that
    agreement as long as InitializeWriteAppData is not called with a size
    above 0x107; with size 0x108 it overwrites the byte and the flag goes
    stale. *)
Theorem classification_follows_discriminant (nfc : Module) :
  (∀ fs fullpath nfc',
     LoadAmiibo fs fullpath nfc = (nfc', true) →
     classification_current nfc')
  ∧ (classification_current nfc →
     length (amiibo_data nfc) = 0x21C%nat →
     ∀ c fs fs' nfc' r,
       handle c fs nfc = Some (fs', nfc', r) →
       (∀ app_id size buffer,
          c = CmdInitializeWriteAppData app_id size buffer →
          size <= 0x107) →
       classification_current nfc')
  ∧ (∃ nfc0 nfc',
       classification_current nfc0
       ∧ InitializeWriteAppData 0 0x108 (replicate 0x108 0) nfc0
         = Some (nfc', Some (status_only RESULT_SUCCESS))
       ∧ ¬ classification_current nfc').
Proof.
  split; [| split].
  - intros fs fullpath nfc'. unfold LoadAmiibo, open_rb, ReadBytes.
    destruct (files fs !! fullpath) as [content |]; [| done].
    case_decide; [| done]. intros [= <-].
    by apply SyncTagState_classification.
  - intros Hc Hl c fs fs' nfc' r Hh Hsize.
    destruct c; simpl in Hh; unfold lift in Hh.
    all: try (injection Hh as <- <- <-).
    all: unfold_handlers'.
    all: repeat first [case_decide | case_match]; simplify_eq;
         cbn [fst snd]; try done.
    all: try (apply SyncTagState_classification).
    all: try done.
    all: change AmiiboDataDec.off_app_data with 0xDC%nat in *;
         change AmiiboDataDec.sizeof with 0x21C%nat in *;
         change AmiiboDataDec.off_app_id with 0xB6%nat in *;
         change (Z.of_nat AmiiboDataDec.size_app_data) with 0xD8 in *;
         change AmiiboDataDec.size_app_data with 0xD8%nat in *.
    all: (eapply classification_current_ext; [| | exact Hc]);
         [reflexivity | cbn [amiibo_data set_amiibo_data set_nfc_tag_state
                             set_amiibo_in_range]].
    all: try (apply update_metadata_lookup_other;
              let H := fresh in
              intros H;
              repeat (apply elem_of_cons in H as [H | H]; [lia |]);
              by apply elem_of_nil in H).
    all: try (apply memcpy_lookup_outside; lia).
    rewrite set_u32_be_lookup_other by lia.
    match goal with H : ∀ _ _ _, _ = _ → _ |- _ =>
      specialize (H _ _ _ eq_refl) end.
    apply memcpy_lookup_outside; lia.
  - exists Examples.tag_in_range. eexists.
    split; [reflexivity |]. split; [reflexivity |].
    unfold classification_current. by vm_compute.
Qed.

Lemma classification_follows_discriminant_witness :
  classification_current
    (LoadAmiibo Examples.raw_disk "raw.bin" Examples.scanning).1.
Proof.
  apply (proj1 (classification_follows_discriminant Examples.scanning)
           Examples.raw_disk "raw.bin").
  reflexivity.
Defined.

Lemma SyncTagState_load_save (nfc target : Module) :
  SyncTagState (load (save nfc) target)
  = load (save (SyncTagState nfc)) target.
Proof.
  destruct nfc as [ein eout s st d dec fn r]. by destruct s, r.
Qed.

(** X28. Module::serialize saves and restores every member except
    amiibo_filename: a module restored into a freshly constructed one
    answers every command but UpdateStoredAmiiboData exactly as before,
    while UpdateStoredAmiiboData is rejected with CommandInvalidForState
    because the file name is empty. *)
Theorem savestate_drops_filename (saved target : Module) :
  let restored := load (save saved) target in
  amiibo_filename restored = amiibo_filename target
  ∧ (amiibo_filename target = amiibo_filename saved → restored = saved)
  ∧ (amiibo_filename target = "" →
     ∀ fs,
       UpdateStoredAmiiboData fs restored
       = (fs, restored,
          Some {| result := nfc_error ErrCodes.CommandInvalidForState;
                  payload := NoPayload |}))
  ∧ (∀ c fs, c ≠ CmdUpdateStoredAmiiboData →
       handle c fs restored = rebase target (handle c fs saved)).
Proof.
  intros restored. subst restored. split; [reflexivity |].
  split; [| split].
  - intros Hf. destruct saved, target; simpl in *. by subst.
  - intros Hf fs. unfold UpdateStoredAmiiboData.
    cbn [load amiibo_filename]. rewrite Hf.
    case_decide; [reflexivity |]. case_match; [reflexivity |].
    case_decide; [reflexivity | done].
  - intros c fs Hc.
    destruct c; try done; simpl; unfold lift, rebase; unfold_handlers';
      cbn [load save nfc_tag_state amiibo_decrypted amiibo_data
           ar_nfc_tag_state ar_amiibo_decrypted ar_amiibo_data
           set_nfc_tag_state set_amiibo_data fst snd];
      repeat first [case_decide | case_match]; simplify_eq;
      cbn [fst snd]; try reflexivity.
    all: by rewrite <- SyncTagState_load_save.
Qed.

Lemma savestate_drops_filename_witness :
  UpdateStoredAmiiboData Examples.disk
    (load (save Examples.tag_data_loaded) Examples.fresh)
  = (Examples.disk, load (save Examples.tag_data_loaded) Examples.fresh,
     Some {| result := nfc_error ErrCodes.CommandInvalidForState;
             payload := NoPayload |}).
Proof.
  destruct (savestate_drops_filename Examples.tag_data_loaded
              Examples.fresh) as (_ & _ & H & _).
  apply H. reflexivity.
Defined.

End Classification.
